(** * Envoy bootstrap configuration renderer

    A shallow embedding of package [bootstrap] (the Go function
    [GetRenderedBootstrapConfig], the method [bootstrapConfig.render] and the
    embedded template [bootstrap.yaml.tpl]) together with the properties of
    the rendered document that the specification states.

    Go strings are byte strings and are modelled by [string]; [int32] values
    are modelled by [Z] (no arithmetic is performed on them, they are only
    formatted); slices are lists, a nil slice being the empty list; pointers
    that are only tested against nil are options. *)

From Stdlib Require Import ZArith Ascii.
From Stdlib Require String DecimalString DecimalZ.
From stdpp Require Import base option list gmap strings.

Set Warnings "-register-all".

(** ** The parts of the Go standard library the package uses *)

Module strings.

(** The line feed and the double quote, which the template text is full of. *)
Definition nl : string := String (ascii_of_nat 10) "".
Definition dq : string := String (ascii_of_nat 34) "".

(** [lines [l1; ...; ln]] is the text made of the given lines, a line feed
    between two consecutive ones (and none after the last). *)
Definition lines (ls : list string) : string := String.concat nl ls.

(** [q s] is [s] between double quotes. *)
Definition q (s : string) : string := dq +:+ s +:+ dq.

(** Concatenation of a sequence of strings. *)
Definition concat (ss : list string) : string := foldr String.append "" ss.

Fixpoint explode (s : string) : list string :=
  match s with
  | "" => []
  | String c s' => String c "" :: explode s'
  end.

(** [split_from sep cur s skip] scans [s] from left to right; [cur] is the
    piece read since the last separator and [skip] the number of bytes of
    a separator just matched that are still to be passed over. *)
Fixpoint split_from (sep cur s : string) (skip : nat) : list string :=
  match s with
  | "" => [cur]
  | String c s' =>
      match skip with
      | S k => split_from sep cur s' k
      | O =>
          if String.prefix sep s
          then cur :: split_from sep "" s' (String.length sep - 1)
          else split_from sep (cur +:+ String c "") s' 0
      end
  end.

(** [strings.Split(s, sep)]: the pieces of [s] between the successive,
    non-overlapping occurrences of [sep], found from left to right.  With
    an empty separator Go explodes [s] into its UTF-8 sequences, which on
    ASCII text are its bytes; the package only splits at [","]. *)
Definition Split (s sep : string) : list string :=
  match sep with
  | "" => explode s
  | _ => split_from sep "" s 0
  end.

End strings.

Module fmt.

(** The verb [%d] (and [fmt.Fprint]) on an integer: its decimal digits, a
    minus sign before them when it is negative. *)
Definition FormatInt (n : Z) : string :=
  DecimalString.NilEmpty.string_of_int (Z.to_int n).

(** [fmt.Sprintf("%s:%d", host, port)] *)
Definition Sprintf_s_colon_d (host : string) (port : Z) : string :=
  host +:+ ":" +:+ FormatInt port.



End fmt.

(** [k8s.io/apimachinery/pkg/util/sets.String], a set of strings. *)
Module sets.
Abbreviation String := (gset string).
Definition NewString : String := ∅.
Definition Has (s : String) (item : string) : bool := bool_decide (item ∈ s).
Definition Insert (s : String) (item : string) : String := {[ item ]} ∪ s.
End sets.

(** ** The policy types of package [egcfgv1a1] *)

(** Modelled from the spec: the declarations of [egcfgv1a1.ProxyMetrics] and
    of the types of its fields are not among the sources.  The policy is "an
    optional object with a presence-only Prometheus flag sub-object; zero or
    more sink entries, each optionally carrying an OpenTelemetry host and
    port; an optional stats-matcher override with three string-sequence
    fields (prefixes, suffixes, regexes)"; the field names are the ones
    [GetRenderedBootstrapConfig] reads. *)
Module egcfgv1a1.

Record PrometheusProvider : Type := { }.

Record OpenTelemetrySink : Type :=
  { Host : string;
    Port : Z }.

Record MetricSink : Type :=
  { OpenTelemetry : option OpenTelemetrySink }.

Record ProxyStatsMatcher : Type :=
  { InclusionPrefixs : list string;
    InclusionSuffixs : list string;
    InclusionRegexps : list string }.

Record ProxyMetrics : Type :=
  { Prometheus : option PrometheusProvider;
    Sinks : list MetricSink;
    StatsMatcher : option ProxyStatsMatcher }.

End egcfgv1a1.

(** ** The constants and the parameter structs of package [bootstrap] *)

Definition envoyCfgFileName : string := "bootstrap.yaml".
Definition envoyGatewayXdsServerHost : string := "envoy-gateway".
Definition envoyAdminAddress : string := "127.0.0.1".
Definition envoyAdminPort : Z := 19000.
Definition envoyAdminAccessLogPath : string := "/dev/null".
Definition DefaultXdsServerPort : Z := 18000.
Definition envoyReadinessAddress : string := "0.0.0.0".
Definition EnvoyReadinessPort : Z := 19001.
Definition EnvoyReadinessPath : string := "/ready".
Definition RequiredEnvoyStatsMatcherInclusionPrefixes : string :=
  "cluster_manager,listener_manager,server,cluster.xds-grpc".

Module xdsServerParameters.
Record t : Type := { Address : string; Port : Z }.
End xdsServerParameters.

Module metricSink.
Record t : Type := { Address : string; Port : Z }.
End metricSink.

Module adminServerParameters.
Record t : Type := { Address : string; Port : Z; AccessLogPath : string }.
End adminServerParameters.

Module readyServerParameters.
Record t : Type := { Address : string; Port : Z; ReadinessPath : string }.
End readyServerParameters.

Module ProxyStatsMatcherParameters.
Record t : Type :=
  { InclusionPrefixs : list string;
    InclusionSuffixs : list string;
    InclusionRegexps : list string }.
(** The zero value of the struct: three nil slices. *)
Definition zero : t :=
  {| InclusionPrefixs := []; InclusionSuffixs := []; InclusionRegexps := [] |}.
End ProxyStatsMatcherParameters.

Module bootstrapParameters.
Record t : Type :=
  { XdsServer : xdsServerParameters.t;
    AdminServer : adminServerParameters.t;
    ReadyServer : readyServerParameters.t;
    EnablePrometheus : bool;
    OtelMetricSinks : list metricSink.t;
    ProxyStatsMatcher : ProxyStatsMatcherParameters.t }.
End bootstrapParameters.

Module bootstrapConfig.
Record t : Type :=
  { parameters : bootstrapParameters.t;
    rendered : string }.
End bootstrapConfig.

(** ** Package [text/template]: the fragment the bootstrap template is written in *)

Module template.

(** What reflection shows of the data a template is executed on. *)
Inductive value : Type :=
| VString (s : string)
| VInt (n : Z)
| VBool (b : bool)
| VSlice (vs : list value)
| VStruct (type_name : string) (fields : list (string * value)).

(** Pipelines: a field chain on the dot ([.A.B]), a variable with a field
    chain ([$x.A]) and the call of a function on one argument ([js $x]). *)
Inductive expr : Type :=
| Dot (fields : list string)
| Var (name : string) (fields : list string)
| Call (fn : string) (arg : expr).

(** The template as it is written.  The flag that comes first in an action
    tells whether it opens with the trim marker [{{-], the flag that closes
    an [if] or a [range] whether its [end] does.  (The bootstrap template
    has no right trim marker, no [else] and no variable declaration other
    than the two variables of a [range].) *)
Inductive source : Type :=
| TText (text : string)
| TAction (ltrim : bool) (pipe : expr)
| TIf (ltrim : bool) (pipe : expr) (body : list source) (end_ltrim : bool)
| TRange (ltrim : bool) (index element : string) (pipe : expr)
    (body : list source) (end_ltrim : bool).

(** The parse tree. *)
Inductive node : Type :=
| TextNode (text : string)
| ActionNode (pipe : expr)
| IfNode (pipe : expr) (body : list node)
| RangeNode (index element : string) (pipe : expr) (body : list node).

(** *** Parsing: the lexer drops the white space that precedes a [{{-] *)

Definition isSpace (c : ascii) : bool :=
  bool_decide (c = " "%char) || bool_decide (c = ascii_of_nat 9)
  || bool_decide (c = ascii_of_nat 13) || bool_decide (c = ascii_of_nat 10).

(** [rightTrim s] is [s] without its trailing white space. *)
Fixpoint rightTrim (s : string) : string :=
  match s with
  | "" => ""
  | String c s' =>
      match rightTrim s' with
      | "" => if isSpace c then "" else String c ""
      | t => String c t
      end
  end.

Definition opens_with_trim (n : source) : bool :=
  match n with
  | TText _ => false
  | TAction lt _ | TIf lt _ _ _ | TRange lt _ _ _ _ _ => lt
  end.

Section parse_list.
Variable parse_one : source → bool → node.

(** [trim_after] tells whether the delimiter that follows the list opens
    with a trim marker. *)
Fixpoint parse_list (ns : list source) (trim_after : bool) : list node :=
  match ns with
  | [] => []
  | n :: rest =>
      parse_one n (match rest with
                   | [] => trim_after
                   | m :: _ => opens_with_trim m
                   end)
      :: parse_list rest trim_after
  end.
End parse_list.

Fixpoint parse_one (n : source) (trim_next : bool) {struct n} : node :=
  match n with
  | TText s => TextNode (if trim_next then rightTrim s else s)
  | TAction _ e => ActionNode e
  | TIf _ e body end_lt => IfNode e (parse_list parse_one body end_lt)
  | TRange _ i x e body end_lt => RangeNode i x e (parse_list parse_one body end_lt)
  end.

(** A parsed template: its name and its tree. *)
Record Template : Type :=
  { Name : string;
    Root : list node }.

(** [template.Must(template.New(name).Parse(text))] *)
Definition Parse (name : string) (text : list source) : Template :=
  {| Name := name; Root := parse_list parse_one text false |}.

(** *** Execution *)

(** The failures of an execution. *)
Inductive ExecError : Type :=
| CantEvaluateField (field type_name : string)
| UndefinedVariable (name : string)
| UndefinedFunction (name : string)
| CantIterateOver (v : value).

(** The name of the type of a value. *)
Definition type_of (v : value) : string :=
  match v with
  | VString _ => "string"
  | VInt _ => "int32"
  | VBool _ => "bool"
  | VSlice _ => "slice"
  | VStruct ty _ => ty
  end.

Definition env : Type := list (string * value).

Fixpoint lookup (x : string) (kvs : list (string * value)) : option value :=
  match kvs with
  | [] => None
  | (y, v) :: kvs' => if String.eqb x y then Some v else lookup x kvs'
  end.

Fixpoint evalFields (v : value) (fields : list string) : value + ExecError :=
  match fields with
  | [] => inl v
  | f :: fields' =>
      match v with
      | VStruct ty fs =>
          match lookup f fs with
          | Some w => evalFields w fields'
          | None => inr (CantEvaluateField f ty)
          end
      | _ => inr (CantEvaluateField f (type_of v))
      end
  end.

(** [fmt.Fprint] of a value. *)
Fixpoint printValue (v : value) : string :=
  match v with
  | VString s => s
  | VInt n => fmt.FormatInt n
  | VBool b => if b then "true" else "false"
  | VSlice vs => "[" +:+ String.concat " " (map printValue vs) +:+ "]"
  | VStruct _ fs => "{" +:+ String.concat " " (map (λ kv, printValue kv.2) fs) +:+ "}"
  end.

(** The truth of a value: a slice or a string is true when it is not
    empty, a number when it is not zero, a struct always. *)
Definition isTrue (v : value) : bool :=
  match v with
  | VString s => negb (String.eqb s "")
  | VInt n => negb (Z.eqb n 0)
  | VBool b => b
  | VSlice vs => match vs with [] => false | _ :: _ => true end
  | VStruct _ _ => true
  end.

(** What an execution has written, and the failure that stopped it. *)
Definition outcome : Type := string * option ExecError.

Definition wrote (s : string) : outcome := (s, None).
Definition failed (e : ExecError) : outcome := ("", Some e).

(** [r1] and then, when it did not fail, [r2]. *)
Definition and_then (r1 r2 : outcome) : outcome :=
  match r1.2 with
  | Some _ => r1
  | None => (r1.1 +:+ r2.1, r2.2)
  end.

Section exec.
(** The builtin [js] is [template.JSEscapeString], whose escaping of the
    runes outside ASCII rests on the Unicode tables; it is taken as
    given. *)
Variable JSEscapeString : string → string.

Definition callFunction (fn : string) (arg : value) : value + ExecError :=
  if String.eqb fn "js" then inl (VString (JSEscapeString (printValue arg)))
  else inr (UndefinedFunction fn).

Fixpoint evalPipeline (e : expr) (dot : value) (vars : env) : value + ExecError :=
  match e with
  | Dot fields => evalFields dot fields
  | Var x fields =>
      match lookup x vars with
      | Some v => evalFields v fields
      | None => inr (UndefinedVariable x)
      end
  | Call fn arg =>
      match evalPipeline arg dot vars with
      | inl v => callFunction fn v
      | inr err => inr err
      end
  end.

Section walk.
Variable walk : node → value → env → outcome.

Fixpoint walkList (ns : list node) (dot : value) (vars : env) : outcome :=
  match ns with
  | [] => wrote ""
  | n :: ns' => and_then (walk n dot vars) (walkList ns' dot vars)
  end.
End walk.

(** The iterations of a [range] over the elements [vs], the first of
    which has index [k]. *)
Fixpoint walkRange (oneIteration : nat → value → outcome)
    (vs : list value) (k : nat) : outcome :=
  match vs with
  | [] => wrote ""
  | v :: vs' => and_then (oneIteration k v) (walkRange oneIteration vs' (S k))
  end.

Fixpoint walk (n : node) (dot : value) (vars : env) {struct n} : outcome :=
  match n with
  | TextNode s => wrote s
  | ActionNode e =>
      match evalPipeline e dot vars with
      | inl v => wrote (printValue v)
      | inr err => failed err
      end
  | IfNode e body =>
      match evalPipeline e dot vars with
      | inl v => if isTrue v then walkList walk body dot vars else wrote ""
      | inr err => failed err
      end
  | RangeNode i x e body =>
      match evalPipeline e dot vars with
      | inl (VSlice vs) =>
          walkRange
            (λ k v, walkList walk body v ((x, v) :: (i, VInt (Z.of_nat k)) :: vars))
            vs 0
      | inl v => failed (CantIterateOver v)
      | inr err => failed err
      end
  end.

(** [t.Execute(buf, data)] on an empty buffer: what the buffer holds when
    [Execute] returns, and the error it returns. *)
Definition Execute (t : Template) (data : value) : outcome :=
  walkList walk (Root t) data [("$", data)].

End exec.

End template.

(** ** Package [bootstrap] *)

Import strings(nl, dq, lines).
Import template(source(..), expr(..), node(..), value(..)).

(** The text of [bootstrap.yaml.tpl], which [bootstrapTmplStr] embeds, action
    by action; the texts between the actions are given line by line. *)
Definition bootstrapTmplStr : list source :=
  [
    TText (lines [
        "admin:";
        "  access_log:";
        "  - name: envoy.access_loggers.file";
        "    typed_config:";
        "      " +:+ dq +:+ "@type" +:+ dq +:+ ": type.googleapis.com/envoy.extensions.access_loggers.file.v3.FileAccessLog";
        "      path: " ]);
    TAction false (Dot ["AdminServer"; "AccessLogPath"]);
    TText (lines [
        "";
        "  address:";
        "    socket_address:";
        "      address: " ]);
    TAction false (Dot ["AdminServer"; "Address"]);
    TText (lines [""; "      port_value: "]);
    TAction false (Dot ["AdminServer"; "Port"]);
    TText (lines [
        "";
        "stats_config:";
        "  stats_matcher:";
        "    inclusion_list:";
        "      patterns:";
        "      " ]);
    TRange true "$a" "$s" (Dot ["ProxyStatsMatcher"; "InclusionPrefixs"]) [
      TText (lines [""; "      - prefix: " +:+ dq]);
      TAction false (Var "$s" []);
      TText (lines [dq; "      "]) ] true;
    TText (lines [""; "      "]);
    TRange true "$a" "$s" (Dot ["ProxyStatsMatcher"; "InclusionSuffixs"]) [
      TText (lines [""; "      - suffix: " +:+ dq]);
      TAction false (Var "$s" []);
      TText (lines [dq; "      "]) ] true;
    TText (lines [""; "      "]);
    TRange true "$a" "$s" (Dot ["ProxyStatsMatcher"; "InclusionRegexps"]) [
      TText (lines [
          "";
          "      - safe_regex:";
          "          google_re2: {}";
          "          regex: " +:+ dq ]);
      TAction false (Call "js" (Var "$s" []));
      TText (lines [dq; "      "]) ] true;
    TText (lines [
        "";
        "dynamic_resources:";
        "  ads_config:";
        "    api_type: DELTA_GRPC";
        "    transport_api_version: V3";
        "    grpc_services:";
        "    - envoy_grpc:";
        "        cluster_name: xds_cluster";
        "    set_node_on_first_message_only: true";
        "  lds_config:";
        "    ads: {}";
        "    resource_api_version: V3";
        "  cds_config:";
        "    ads: {}";
        "    resource_api_version: V3";
        "" ]);
    TIf true (Dot ["OtelMetricSinks"]) [
      TText (lines [
          "";
          "stats_sinks:";
          "" ]);
      TRange true "$idx" "$sink" (Dot ["OtelMetricSinks"]) [
        TText (lines [
            "";
            "- name: " +:+ dq +:+ "envoy.stat_sinks.open_telemetry" +:+ dq;
            "  typed_config:";
            "    " +:+ dq +:+ "@type" +:+ dq +:+ ": type.googleapis.com/envoy.extensions.stat_sinks.open_telemetry.v3.SinkConfig";
            "    grpc_service:";
            "      envoy_grpc:";
            "        cluster_name: otel_metric_sink_" ]);
        TAction false (Var "$idx" []);
        TText (lines [""; ""]) ] true;
      TText (lines [""; ""]) ] true;
    TText (lines [
        "";
        "static_resources:";
        "  listeners:";
        "  - name: envoy-gateway-proxy-ready-" ]);
    TAction false (Dot ["ReadyServer"; "Address"]);
    TText (lines ["-"]);
    TAction false (Dot ["ReadyServer"; "Port"]);
    TText (lines [
        "";
        "    address:";
        "      socket_address:";
        "        address: " ]);
    TAction false (Dot ["ReadyServer"; "Address"]);
    TText (lines [""; "        port_value: "]);
    TAction false (Dot ["ReadyServer"; "Port"]);
    TText (lines [
        "";
        "        protocol: TCP";
        "    filter_chains:";
        "    - filters:";
        "      - name: envoy.filters.network.http_connection_manager";
        "        typed_config:";
        "          " +:+ dq +:+ "@type" +:+ dq +:+ ": type.googleapis.com/envoy.extensions.filters.network.http_connection_manager.v3.HttpConnectionManager";
        "          stat_prefix: eg-ready-http";
        "          route_config:";
        "            name: local_route";
        "            " ]);
    TIf true (Dot ["EnablePrometheus"]) [
      TText (lines [
          "";
          "            virtual_hosts:";
          "            - name: prometheus_stats";
          "              domains:";
          "              - " +:+ dq +:+ "*" +:+ dq;
          "              routes:";
          "              - match:";
          "                  prefix: /stats/prometheus";
          "                route:";
          "                  cluster: prometheus_stats";
          "            " ]) ] true;
    TText (lines [
        "";
        "          http_filters:";
        "          - name: envoy.filters.http.health_check";
        "            typed_config:";
        "              " +:+ dq +:+ "@type" +:+ dq +:+ ": type.googleapis.com/envoy.extensions.filters.http.health_check.v3.HealthCheck";
        "              pass_through_mode: false";
        "              headers:";
        "              - name: " +:+ dq +:+ ":path" +:+ dq;
        "                string_match:";
        "                  exact: " ]);
    TAction false (Dot ["ReadyServer"; "ReadinessPath"]);
    TText (lines [
        "";
        "          - name: envoy.filters.http.router";
        "            typed_config:";
        "              " +:+ dq +:+ "@type" +:+ dq +:+ ": type.googleapis.com/envoy.extensions.filters.http.router.v3.Router";
        "  clusters:";
        "  " ]);
    TIf true (Dot ["EnablePrometheus"]) [
      TText (lines [
          "";
          "  - name: prometheus_stats";
          "    connect_timeout: 0.250s";
          "    type: STATIC";
          "    lb_policy: ROUND_ROBIN";
          "    load_assignment:";
          "      cluster_name: prometheus_stats";
          "      endpoints:";
          "      - lb_endpoints:";
          "        - endpoint:";
          "            address:";
          "              socket_address:";
          "                address: " ]);
      TAction false (Dot ["AdminServer"; "Address"]);
      TText (lines [""; "                port_value: "]);
      TAction false (Dot ["AdminServer"; "Port"]);
      TText (lines [""; "  "]) ] true;
    TText (lines [""; "  "]);
    TRange true "$idx" "$sink" (Dot ["OtelMetricSinks"]) [
      TText (lines [""; "  - name: otel_metric_sink_"]);
      TAction false (Var "$idx" []);
      TText (lines [
          "";
          "    connect_timeout: 0.250s";
          "    type: STRICT_DNS";
          "    typed_extension_protocol_options:";
          "      envoy.extensions.upstreams.http.v3.HttpProtocolOptions:";
          "        " +:+ dq +:+ "@type" +:+ dq +:+ ": " +:+ dq +:+ "type.googleapis.com/envoy.extensions.upstreams.http.v3.HttpProtocolOptions" +:+ dq;
          "        explicit_http_config:";
          "          http2_protocol_options: {}";
          "    lb_policy: ROUND_ROBIN";
          "    load_assignment:";
          "      cluster_name: otel_metric_sink_" ]);
      TAction false (Var "$idx" []);
      TText (lines [
          "";
          "      endpoints:";
          "      - lb_endpoints:";
          "        - endpoint:";
          "            address:";
          "              socket_address:";
          "                address: " ]);
      TAction false (Var "$sink" ["Address"]);
      TText (lines [""; "                port_value: "]);
      TAction false (Var "$sink" ["Port"]);
      TText (lines [""; "  "]) ] true;
    TText (lines [
        "";
        "  - connect_timeout: 10s";
        "    load_assignment:";
        "      cluster_name: xds_cluster";
        "      endpoints:";
        "      - lb_endpoints:";
        "        - endpoint:";
        "            address:";
        "              socket_address:";
        "                address: " ]);
    TAction false (Dot ["XdsServer"; "Address"]);
    TText (lines [""; "                port_value: "]);
    TAction false (Dot ["XdsServer"; "Port"]);
    TText (lines [
        "";
        "    typed_extension_protocol_options:";
        "      envoy.extensions.upstreams.http.v3.HttpProtocolOptions:";
        "        " +:+ dq +:+ "@type" +:+ dq +:+ ": " +:+ dq +:+ "type.googleapis.com/envoy.extensions.upstreams.http.v3.HttpProtocolOptions" +:+ dq;
        "        explicit_http_config:";
        "          http2_protocol_options: {}";
        "    name: xds_cluster";
        "    type: STRICT_DNS";
        "    transport_socket:";
        "      name: envoy.transport_sockets.tls";
        "      typed_config:";
        "        " +:+ dq +:+ "@type" +:+ dq +:+ ": type.googleapis.com/envoy.extensions.transport_sockets.tls.v3.UpstreamTlsContext";
        "        common_tls_context:";
        "          tls_params:";
        "            tls_maximum_protocol_version: TLSv1_3";
        "          tls_certificate_sds_secret_configs:";
        "          - name: xds_certificate";
        "            sds_config:";
        "              path_config_source:";
        "                path: " +:+ dq +:+ "/sds/xds-certificate.json" +:+ dq;
        "              resource_api_version: V3";
        "          validation_context_sds_secret_config:";
        "            name: xds_trusted_ca";
        "            sds_config:";
        "              path_config_source:";
        "                path: " +:+ dq +:+ "/sds/xds-trusted-ca.json" +:+ dq;
        "              resource_api_version: V3";
        "layered_runtime:";
        "  layers:";
        "  - name: runtime-0";
        "    rtds_layer:";
        "      rtds_config:";
        "        ads: {}";
        "        resource_api_version: V3";
        "      name: runtime-0";
        "" ])

  ].

(** [var bootstrapTmpl = template.Must(template.New(envoyCfgFileName).Parse(bootstrapTmplStr))] *)
Definition bootstrapTmpl : template.Template :=
  template.Parse envoyCfgFileName bootstrapTmplStr.

(** What reflection shows of the parameter structs. *)
Module reflect.

Definition strings (ss : list string) : value := VSlice (VString <$> ss).

Definition xdsServer (x : xdsServerParameters.t) : value :=
  VStruct "bootstrap.xdsServerParameters"
    [("Address", VString (xdsServerParameters.Address x));
     ("Port", VInt (xdsServerParameters.Port x))].

Definition adminServer (a : adminServerParameters.t) : value :=
  VStruct "bootstrap.adminServerParameters"
    [("Address", VString (adminServerParameters.Address a));
     ("Port", VInt (adminServerParameters.Port a));
     ("AccessLogPath", VString (adminServerParameters.AccessLogPath a))].

Definition readyServer (r : readyServerParameters.t) : value :=
  VStruct "bootstrap.readyServerParameters"
    [("Address", VString (readyServerParameters.Address r));
     ("Port", VInt (readyServerParameters.Port r));
     ("ReadinessPath", VString (readyServerParameters.ReadinessPath r))].

Definition sink (s : metricSink.t) : value :=
  VStruct "bootstrap.metricSink"
    [("Address", VString (metricSink.Address s));
     ("Port", VInt (metricSink.Port s))].

Definition statsMatcher (m : ProxyStatsMatcherParameters.t) : value :=
  VStruct "bootstrap.ProxyStatsMatcherParameters"
    [("InclusionPrefixs", strings (ProxyStatsMatcherParameters.InclusionPrefixs m));
     ("InclusionSuffixs", strings (ProxyStatsMatcherParameters.InclusionSuffixs m));
     ("InclusionRegexps", strings (ProxyStatsMatcherParameters.InclusionRegexps m))].

Definition parameters (p : bootstrapParameters.t) : value :=
  VStruct "bootstrap.bootstrapParameters"
    [("XdsServer", xdsServer (bootstrapParameters.XdsServer p));
     ("AdminServer", adminServer (bootstrapParameters.AdminServer p));
     ("ReadyServer", readyServer (bootstrapParameters.ReadyServer p));
     ("EnablePrometheus", VBool (bootstrapParameters.EnablePrometheus p));
     ("OtelMetricSinks", VSlice (sink <$> bootstrapParameters.OtelMetricSinks p));
     ("ProxyStatsMatcher", statsMatcher (bootstrapParameters.ProxyStatsMatcher p))].

End reflect.

(** Go's [error] values, each given by what made it: the failure of a
    template execution, which [Execute] returns, and the value of
    [fmt.Errorf(format, a)] for an error [a]. *)
Inductive error : Type :=
| templateExecError (tmpl_name : string) (e : template.ExecError)
| Errorf (format : string) (a : error).


Section error_text.
(** The text that the template library gives to a failure of the template
    of a given name, [err.Error()]. *)
Variable ExecError_Error : string → template.ExecError → string.

End error_text.

(** [fmt.Errorf("failed to render bootstrap config: %v", err)] *)
Definition Errorf_failed_to_render (err : error) : error :=
  Errorf "failed to render bootstrap config: %v" err.

(** The body of the loop over [proxyMetrics.Sinks]; the state is the set
    [addresses] and the slice [metricSinks]. *)
Definition sinkLoopBody (st : sets.String * list metricSink.t)
    (sink : egcfgv1a1.MetricSink) : sets.String * list metricSink.t :=
  let '(addresses, metricSinks) := st in
  match egcfgv1a1.OpenTelemetry sink with
  | None => st
  | Some otel =>
      let addr := fmt.Sprintf_s_colon_d (egcfgv1a1.Host otel) (egcfgv1a1.Port otel) in
      if sets.Has addresses addr then st
      else (sets.Insert addresses addr,
            metricSinks ++ [ {| metricSink.Address := egcfgv1a1.Host otel;
                                metricSink.Port := egcfgv1a1.Port otel |} ])
  end.

(** [metricSinks] when the loop over [sinks] is over. *)
Definition sinkLoop (sinks : list egcfgv1a1.MetricSink) : list metricSink.t :=
  (foldl sinkLoopBody (sets.NewString, []) sinks).2.

(** The first part of [GetRenderedBootstrapConfig], up to the construction
    of [cfg]: the parameters it renders. *)
Definition buildParameters (proxyMetrics : option egcfgv1a1.ProxyMetrics)
    : bootstrapParameters.t :=
  let '(enablePrometheus, metricSinks, ProxyStatsMatcher) :=
    match proxyMetrics with
    | None => (false, [], ProxyStatsMatcherParameters.zero)
    | Some proxyMetrics =>
        (match egcfgv1a1.Prometheus proxyMetrics with Some _ => true | None => false end,
         sinkLoop (egcfgv1a1.Sinks proxyMetrics),
         match egcfgv1a1.StatsMatcher proxyMetrics with
         | Some m =>
             {| ProxyStatsMatcherParameters.InclusionPrefixs := egcfgv1a1.InclusionPrefixs m;
                ProxyStatsMatcherParameters.InclusionSuffixs := egcfgv1a1.InclusionSuffixs m;
                ProxyStatsMatcherParameters.InclusionRegexps := egcfgv1a1.InclusionRegexps m |}
         | None => ProxyStatsMatcherParameters.zero
         end)
    end in
  let ProxyStatsMatcher :=
    {| ProxyStatsMatcherParameters.InclusionPrefixs :=
         ProxyStatsMatcherParameters.InclusionPrefixs ProxyStatsMatcher
         ++ strings.Split RequiredEnvoyStatsMatcherInclusionPrefixes ",";
       ProxyStatsMatcherParameters.InclusionSuffixs :=
         ProxyStatsMatcherParameters.InclusionSuffixs ProxyStatsMatcher;
       ProxyStatsMatcherParameters.InclusionRegexps :=
         ProxyStatsMatcherParameters.InclusionRegexps ProxyStatsMatcher |} in
  {| bootstrapParameters.XdsServer :=
       {| xdsServerParameters.Address := envoyGatewayXdsServerHost;
          xdsServerParameters.Port := DefaultXdsServerPort |};
     bootstrapParameters.AdminServer :=
       {| adminServerParameters.Address := envoyAdminAddress;
          adminServerParameters.Port := envoyAdminPort;
          adminServerParameters.AccessLogPath := envoyAdminAccessLogPath |};
     bootstrapParameters.ReadyServer :=
       {| readyServerParameters.Address := envoyReadinessAddress;
          readyServerParameters.Port := EnvoyReadinessPort;
          readyServerParameters.ReadinessPath := EnvoyReadinessPath |};
     bootstrapParameters.EnablePrometheus := enablePrometheus;
     bootstrapParameters.OtelMetricSinks := metricSinks;
     bootstrapParameters.ProxyStatsMatcher := ProxyStatsMatcher |}.

Section bootstrap.
(** The builtin [js] of the templates, see [template.Execute]. *)
Variable JSEscapeString : string → string.

(** [(b *bootstrapConfig) render()], for the template [tmpl] in the place
    of the package variable [bootstrapTmpl]: the configuration when the
    method returns, and the error it returns. *)
Definition renderWith (tmpl : template.Template) (b : bootstrapConfig.t)
    : bootstrapConfig.t * option error :=
  let '(buf, err) :=
    template.Execute JSEscapeString tmpl
      (reflect.parameters (bootstrapConfig.parameters b)) in
  match err with
  | Some err =>
      (b, Some (Errorf_failed_to_render (templateExecError (template.Name tmpl) err)))
  | None =>
      ({| bootstrapConfig.parameters := bootstrapConfig.parameters b;
          bootstrapConfig.rendered := buf |}, None)
  end.

(** [GetRenderedBootstrapConfig], for the template [tmpl]. *)
Definition GetRenderedBootstrapConfigWith (tmpl : template.Template)
    (proxyMetrics : option egcfgv1a1.ProxyMetrics) : string * option error :=
  let cfg := {| bootstrapConfig.parameters := buildParameters proxyMetrics;
                bootstrapConfig.rendered := "" |} in
  let '(cfg, err) := renderWith tmpl cfg in
  match err with
  | Some err => ("", Some err)
  | None => (bootstrapConfig.rendered cfg, None)
  end.

Definition render : bootstrapConfig.t → bootstrapConfig.t * option error :=
  renderWith bootstrapTmpl.

Definition GetRenderedBootstrapConfig
  : option egcfgv1a1.ProxyMetrics → string * option error :=
  GetRenderedBootstrapConfigWith bootstrapTmpl.


(** ** The rendered document, block by block

  The document is a sequence of lines (a string that comes from the policy
  may itself hold line feeds; it still stands in the one line the template
  puts it in).  Each block below is the list of the lines of one part of
  the document. *)

(** The text of a sequence of lines, each with a line feed before it. *)
Definition nlines (ls : list string) : string :=
  foldr (λ l text, nl +:+ l +:+ text) "" ls.

Definition admin_lines (a : adminServerParameters.t) : list string :=
  [ "admin:";
    "  access_log:";
    "  - name: envoy.access_loggers.file";
    "    typed_config:";
    "      " +:+ dq +:+ "@type" +:+ dq +:+ ": type.googleapis.com/envoy.extensions.access_loggers.file.v3.FileAccessLog";
    "      path: " +:+ adminServerParameters.AccessLogPath a;
    "  address:";
    "    socket_address:";
    "      address: " +:+ adminServerParameters.Address a;
    "      port_value: " +:+ fmt.FormatInt (adminServerParameters.Port a) ].

Definition prefix_pattern (s : string) : string := "      - prefix: " +:+ dq +:+ s +:+ dq.
Definition suffix_pattern (s : string) : string := "      - suffix: " +:+ dq +:+ s +:+ dq.
Definition regex_pattern_lines (s : string) : list string :=
  [ "      - safe_regex:";
    "          google_re2: {}";
    "          regex: " +:+ dq +:+ JSEscapeString s +:+ dq ].

Definition stats_config_lines (m : ProxyStatsMatcherParameters.t) : list string :=
  [ "stats_config:";
    "  stats_matcher:";
    "    inclusion_list:";
    "      patterns:" ]
  ++ (prefix_pattern <$> ProxyStatsMatcherParameters.InclusionPrefixs m)
  ++ (suffix_pattern <$> ProxyStatsMatcherParameters.InclusionSuffixs m)
  ++ concat (regex_pattern_lines <$> ProxyStatsMatcherParameters.InclusionRegexps m).

Definition dynamic_resources_lines : list string :=
  [ "dynamic_resources:";
    "  ads_config:";
    "    api_type: DELTA_GRPC";
    "    transport_api_version: V3";
    "    grpc_services:";
    "    - envoy_grpc:";
    "        cluster_name: xds_cluster";
    "    set_node_on_first_message_only: true";
    "  lds_config:";
    "    ads: {}";
    "    resource_api_version: V3";
    "  cds_config:";
    "    ads: {}";
    "    resource_api_version: V3" ].

(** The entry of the sink at position [idx] in [stats_sinks]. *)
Definition stats_sink_lines (idx : nat) : list string :=
  [ "- name: " +:+ dq +:+ "envoy.stat_sinks.open_telemetry" +:+ dq;
    "  typed_config:";
    "    " +:+ dq +:+ "@type" +:+ dq +:+ ": type.googleapis.com/envoy.extensions.stat_sinks.open_telemetry.v3.SinkConfig";
    "    grpc_service:";
    "      envoy_grpc:";
    "        cluster_name: otel_metric_sink_" +:+ fmt.FormatInt (Z.of_nat idx) ].

(** The section [stats_sinks]; it is there when there is a sink. *)
Definition stats_sinks_lines (sinks : list metricSink.t) : list string :=
  match sinks with
  | [] => []
  | _ :: _ => "stats_sinks:" :: concat (imap (λ idx _, stats_sink_lines idx) sinks)
  end.

(** The readiness listener, up to its route configuration. *)
Definition ready_listener_lines (r : readyServerParameters.t) : list string :=
  [ "static_resources:";
    "  listeners:";
    "  - name: envoy-gateway-proxy-ready-" +:+ readyServerParameters.Address r +:+ "-" +:+ fmt.FormatInt (readyServerParameters.Port r);
    "    address:";
    "      socket_address:";
    "        address: " +:+ readyServerParameters.Address r;
    "        port_value: " +:+ fmt.FormatInt (readyServerParameters.Port r);
    "        protocol: TCP";
    "    filter_chains:";
    "    - filters:";
    "      - name: envoy.filters.network.http_connection_manager";
    "        typed_config:";
    "          " +:+ dq +:+ "@type" +:+ dq +:+ ": type.googleapis.com/envoy.extensions.filters.network.http_connection_manager.v3.HttpConnectionManager";
    "          stat_prefix: eg-ready-http";
    "          route_config:";
    "            name: local_route" ].

(** The route [/stats/prometheus] of the readiness listener. *)
Definition prometheus_route_lines : list string :=
  [ "            virtual_hosts:";
    "            - name: prometheus_stats";
    "              domains:";
    "              - " +:+ dq +:+ "*" +:+ dq;
    "              routes:";
    "              - match:";
    "                  prefix: /stats/prometheus";
    "                route:";
    "                  cluster: prometheus_stats" ].

Definition ready_filters_lines (r : readyServerParameters.t) : list string :=
  [ "          http_filters:";
    "          - name: envoy.filters.http.health_check";
    "            typed_config:";
    "              " +:+ dq +:+ "@type" +:+ dq +:+ ": type.googleapis.com/envoy.extensions.filters.http.health_check.v3.HealthCheck";
    "              pass_through_mode: false";
    "              headers:";
    "              - name: " +:+ dq +:+ ":path" +:+ dq;
    "                string_match:";
    "                  exact: " +:+ readyServerParameters.ReadinessPath r;
    "          - name: envoy.filters.http.router";
    "            typed_config:";
    "              " +:+ dq +:+ "@type" +:+ dq +:+ ": type.googleapis.com/envoy.extensions.filters.http.router.v3.Router" ].

(** The cluster [prometheus_stats], at the address of the admin interface. *)
Definition prometheus_cluster_lines (a : adminServerParameters.t) : list string :=
  [ "  - name: prometheus_stats";
    "    connect_timeout: 0.250s";
    "    type: STATIC";
    "    lb_policy: ROUND_ROBIN";
    "    load_assignment:";
    "      cluster_name: prometheus_stats";
    "      endpoints:";
    "      - lb_endpoints:";
    "        - endpoint:";
    "            address:";
    "              socket_address:";
    "                address: " +:+ adminServerParameters.Address a;
    "                port_value: " +:+ fmt.FormatInt (adminServerParameters.Port a) ].

(** The cluster of the sink at position [idx]. *)
Definition otel_metric_sink_cluster_lines (idx : nat) (sink : metricSink.t) : list string :=
  [ "  - name: otel_metric_sink_" +:+ fmt.FormatInt (Z.of_nat idx);
    "    connect_timeout: 0.250s";
    "    type: STRICT_DNS";
    "    typed_extension_protocol_options:";
    "      envoy.extensions.upstreams.http.v3.HttpProtocolOptions:";
    "        " +:+ dq +:+ "@type" +:+ dq +:+ ": " +:+ dq +:+ "type.googleapis.com/envoy.extensions.upstreams.http.v3.HttpProtocolOptions" +:+ dq;
    "        explicit_http_config:";
    "          http2_protocol_options: {}";
    "    lb_policy: ROUND_ROBIN";
    "    load_assignment:";
    "      cluster_name: otel_metric_sink_" +:+ fmt.FormatInt (Z.of_nat idx);
    "      endpoints:";
    "      - lb_endpoints:";
    "        - endpoint:";
    "            address:";
    "              socket_address:";
    "                address: " +:+ metricSink.Address sink;
    "                port_value: " +:+ fmt.FormatInt (metricSink.Port sink) ].

Definition xds_cluster_lines (x : xdsServerParameters.t) : list string :=
  [ "  - connect_timeout: 10s";
    "    load_assignment:";
    "      cluster_name: xds_cluster";
    "      endpoints:";
    "      - lb_endpoints:";
    "        - endpoint:";
    "            address:";
    "              socket_address:";
    "                address: " +:+ xdsServerParameters.Address x;
    "                port_value: " +:+ fmt.FormatInt (xdsServerParameters.Port x);
    "    typed_extension_protocol_options:";
    "      envoy.extensions.upstreams.http.v3.HttpProtocolOptions:";
    "        " +:+ dq +:+ "@type" +:+ dq +:+ ": " +:+ dq +:+ "type.googleapis.com/envoy.extensions.upstreams.http.v3.HttpProtocolOptions" +:+ dq;
    "        explicit_http_config:";
    "          http2_protocol_options: {}";
    "    name: xds_cluster";
    "    type: STRICT_DNS";
    "    transport_socket:";
    "      name: envoy.transport_sockets.tls";
    "      typed_config:";
    "        " +:+ dq +:+ "@type" +:+ dq +:+ ": type.googleapis.com/envoy.extensions.transport_sockets.tls.v3.UpstreamTlsContext";
    "        common_tls_context:";
    "          tls_params:";
    "            tls_maximum_protocol_version: TLSv1_3";
    "          tls_certificate_sds_secret_configs:";
    "          - name: xds_certificate";
    "            sds_config:";
    "              path_config_source:";
    "                path: " +:+ dq +:+ "/sds/xds-certificate.json" +:+ dq;
    "              resource_api_version: V3";
    "          validation_context_sds_secret_config:";
    "            name: xds_trusted_ca";
    "            sds_config:";
    "              path_config_source:";
    "                path: " +:+ dq +:+ "/sds/xds-trusted-ca.json" +:+ dq;
    "              resource_api_version: V3" ].

Definition layered_runtime_lines : list string :=
  [ "layered_runtime:";
    "  layers:";
    "  - name: runtime-0";
    "    rtds_layer:";
    "      rtds_config:";
    "        ads: {}";
    "        resource_api_version: V3";
    "      name: runtime-0" ].

(** The readiness listener; its route configuration has the route to the
    Prometheus statistics when [EnablePrometheus] is set. *)
Definition listener_lines (p : bootstrapParameters.t) : list string :=
  ready_listener_lines (bootstrapParameters.ReadyServer p)
  ++ (if bootstrapParameters.EnablePrometheus p then prometheus_route_lines else [])
  ++ ready_filters_lines (bootstrapParameters.ReadyServer p).

(** The clusters: [prometheus_stats] when [EnablePrometheus] is set, one
    cluster for each sink, and the cluster of the xDS server. *)
Definition clusters_lines (p : bootstrapParameters.t) : list string :=
  "  clusters:"
  :: (if bootstrapParameters.EnablePrometheus p
      then prometheus_cluster_lines (bootstrapParameters.AdminServer p) else [])
  ++ concat (imap otel_metric_sink_cluster_lines (bootstrapParameters.OtelMetricSinks p))
  ++ xds_cluster_lines (bootstrapParameters.XdsServer p).

(** The lines of the document. *)
Definition document_lines (p : bootstrapParameters.t) : list string :=
  admin_lines (bootstrapParameters.AdminServer p)
  ++ stats_config_lines (bootstrapParameters.ProxyStatsMatcher p)
  ++ dynamic_resources_lines
  ++ stats_sinks_lines (bootstrapParameters.OtelMetricSinks p)
  ++ listener_lines p
  ++ clusters_lines p
  ++ layered_runtime_lines.

(** The document: its lines, a line feed after each. *)
Definition document (p : bootstrapParameters.t) : string :=
  lines (document_lines p) +:+ nl.

End bootstrap.

(** ** The notions the properties are stated with *)

(** The sinks of a policy; an absent policy has none. *)
Definition policy_sinks (proxyMetrics : option egcfgv1a1.ProxyMetrics)
    : list egcfgv1a1.MetricSink :=
  match proxyMetrics with
  | None => []
  | Some pm => egcfgv1a1.Sinks pm
  end.

(** The OpenTelemetry targets of the sinks that carry one, in the order of
    the sinks. *)
Definition otel_targets (proxyMetrics : option egcfgv1a1.ProxyMetrics)
    : list egcfgv1a1.OpenTelemetrySink :=
  omap egcfgv1a1.OpenTelemetry (policy_sinks proxyMetrics).

(** The key ["host:port"] of a target. *)
Definition sink_key (t : egcfgv1a1.OpenTelemetrySink) : string :=
  fmt.Sprintf_s_colon_d (egcfgv1a1.Host t) (egcfgv1a1.Port t).

(** The sink parameters of a target. *)
Definition to_metricSink (t : egcfgv1a1.OpenTelemetrySink) : metricSink.t :=
  {| metricSink.Address := egcfgv1a1.Host t; metricSink.Port := egcfgv1a1.Port t |}.

(** [first_occurrences key l] keeps, of the elements of [l] that have the
    same key, the first one: the head of the list stays, and the elements
    that have its key leave the rest. *)
Fixpoint first_occurrences {A K : Type} `{EqDecision K} (key : A → K) (l : list A)
    : list A :=
  match l with
  | [] => []
  | x :: l' => x :: filter (λ y, key y ≠ key x) (first_occurrences key l')
  end.

(** The stats matcher of a policy; an absent policy has none. *)
Definition policy_matcher (proxyMetrics : option egcfgv1a1.ProxyMetrics)
    : option egcfgv1a1.ProxyStatsMatcher :=
  match proxyMetrics with
  | None => None
  | Some pm => egcfgv1a1.StatsMatcher pm
  end.

(** The prefixes, suffixes and regular expressions the caller supplies: those
    of the stats matcher of the policy, none when it is absent. *)
Definition caller_prefixes (proxyMetrics : option egcfgv1a1.ProxyMetrics) : list string :=
  match policy_matcher proxyMetrics with
  | None => []
  | Some m => egcfgv1a1.InclusionPrefixs m
  end.

Definition caller_suffixes (proxyMetrics : option egcfgv1a1.ProxyMetrics) : list string :=
  match policy_matcher proxyMetrics with
  | None => []
  | Some m => egcfgv1a1.InclusionSuffixs m
  end.

Definition caller_regexps (proxyMetrics : option egcfgv1a1.ProxyMetrics) : list string :=
  match policy_matcher proxyMetrics with
  | None => []
  | Some m => egcfgv1a1.InclusionRegexps m
  end.

(** The mandatory baseline of inclusion prefixes. *)
Definition baseline_prefixes : list string :=
  ["cluster_manager"; "listener_manager"; "server"; "cluster.xds-grpc"].

(** The policy is present and has its Prometheus sub-object. *)
Definition prometheus_present (proxyMetrics : option egcfgv1a1.ProxyMetrics) : Prop :=
  ∃ pm provider, proxyMetrics = Some pm ∧ egcfgv1a1.Prometheus pm = Some provider.

(** The number of times the line [l] stands in [ls]. *)
Definition occurrences (l : string) (ls : list string) : nat :=
  length (filter (λ l', l' = l) ls).

(** The fixed infrastructure descriptors. *)
Definition fixed_XdsServer : xdsServerParameters.t :=
  {| xdsServerParameters.Address := "envoy-gateway"; xdsServerParameters.Port := 18000 |}.

Definition fixed_AdminServer : adminServerParameters.t :=
  {| adminServerParameters.Address := "127.0.0.1";
     adminServerParameters.Port := 19000;
     adminServerParameters.AccessLogPath := "/dev/null" |}.

Definition fixed_ReadyServer : readyServerParameters.t :=
  {| readyServerParameters.Address := "0.0.0.0";
     readyServerParameters.Port := 19001;
     readyServerParameters.ReadinessPath := "/ready" |}.

(** A string without a colon. *)
Fixpoint colon_free (s : string) : Prop :=
  match s with
  | "" => True
  | String c s' => c ≠ ":"%char ∧ colon_free s'
  end.

(** The lines of [ls] that start with [pre]. *)
Definition starting_with (pre : string) (ls : list string) : list string :=
  filter (λ l, String.prefix pre l = true) ls.

(** The lines of the document that depend on nothing but on whether
    [EnablePrometheus] is set and on whether there is a sink. *)
Definition fixed_lines (enablePrometheus hasSinks : bool) : list string :=
  admin_lines fixed_AdminServer
  ++ ["stats_config:"; "  stats_matcher:"; "    inclusion_list:"; "      patterns:"]
  ++ dynamic_resources_lines
  ++ (if hasSinks then ["stats_sinks:"] else [])
  ++ ready_listener_lines fixed_ReadyServer
  ++ (if enablePrometheus then prometheus_route_lines else [])
  ++ ready_filters_lines fixed_ReadyServer
  ++ ["  clusters:"]
  ++ (if enablePrometheus then prometheus_cluster_lines fixed_AdminServer else [])
  ++ xds_cluster_lines fixed_XdsServer
  ++ layered_runtime_lines.

(** Whether the Prometheus sub-object is there can be decided, and so can the
    equality of two sinks. *)
#[global] Instance prometheus_present_dec (pm : option egcfgv1a1.ProxyMetrics) :
  Decision (prometheus_present pm).
Proof.
  destruct pm as [[[provider|] sinks matcher]|].
  - left. by exists (egcfgv1a1.Build_ProxyMetrics (Some provider) sinks matcher), provider.
  - right. intros (pm & provider & [= <-] & Hp). done.
  - right. intros (pm & provider & Hpm & _). done.
Defined.

#[global] Instance metricSink_eq_dec : EqDecision metricSink.t.
Proof. solve_decision. Defined.

(** *** Concatenations, up to the way they are nested

    A concatenation of strings is read as a tree; two trees that have the
    same leaves from left to right have the same text. *)

Inductive cat : Type :=
| Leaf (s : string)
| Cat (a b : cat).

Fixpoint text (e : cat) : string :=
  match e with
  | Leaf s => s
  | Cat a b => text a +:+ text b
  end.

Fixpoint leaves (e : cat) (after : list string) : list string :=
  match e with
  | Leaf s => s :: after
  | Cat a b => leaves a (leaves b after)
  end.

(** [prepend s r] is the outcome [r] of an execution after [s] has been
    written. *)
Definition prepend (s : string) (r : template.outcome) : template.outcome :=
  (s +:+ r.1, r.2).

(** The examples hold no regular expression, so that what the builtin [js]
    does is of no matter to them: they take the identity for it. *)
Definition js_id (s : string) : string := s.

(** A template that fails in the middle of its text: the field [Missing] is
    no field of the parameters. *)
Definition brokenTmpl : template.Template :=
  template.Parse "broken.yaml"
    [ TText "admin: ";
      TAction false (Dot ["AdminServer"; "Address"]);
      TText " ";
      TAction false (Dot ["Missing"]);
      TText " end" ].

(** A policy with a Prometheus provider, three sinks for two addresses and
    one sink without an OpenTelemetry target, and one prefix of its own. *)
Definition example_policy : egcfgv1a1.ProxyMetrics :=
  {| egcfgv1a1.Prometheus := Some egcfgv1a1.Build_PrometheusProvider;
     egcfgv1a1.Sinks :=
       [ {| egcfgv1a1.OpenTelemetry :=
              Some {| egcfgv1a1.Host := "m"; egcfgv1a1.Port := 4317 |} |};
         {| egcfgv1a1.OpenTelemetry := None |};
         {| egcfgv1a1.OpenTelemetry :=
              Some {| egcfgv1a1.Host := "n"; egcfgv1a1.Port := 4318 |} |};
         {| egcfgv1a1.OpenTelemetry :=
              Some {| egcfgv1a1.Host := "m"; egcfgv1a1.Port := 4317 |} |} ];
     egcfgv1a1.StatsMatcher :=
       Some {| egcfgv1a1.InclusionPrefixs := ["custom_"];
               egcfgv1a1.InclusionSuffixs := [];
               egcfgv1a1.InclusionRegexps := [] |} |}.

(** ** Further notions: the sinks, and reading the document *)

(** The key of a sink that has been kept. *)
Definition metricSink_key (m : metricSink.t) : string :=
  fmt.Sprintf_s_colon_d (metricSink.Address m) (metricSink.Port m).

(** The sinks of the targets of a sequence of sinks of the policy, none
    dropped. *)
Definition all_metricSinks (sinks : list egcfgv1a1.MetricSink) : list metricSink.t :=
  to_metricSink <$> omap egcfgv1a1.OpenTelemetry sinks.

(** [strip_prefix pre l] is what follows [pre] in [l], when [l] starts with
    [pre]. *)
Fixpoint strip_prefix (pre l : string) : option string :=
  match pre with
  | "" => Some l
  | String a pre' =>
      match l with
      | "" => None
      | String b l' => if Ascii.eqb a b then strip_prefix pre' l' else None
      end
  end.

(** What follows [pre] in the lines of [ls] that start with [pre]. *)
Definition after (pre : string) (ls : list string) : list string :=
  omap (strip_prefix pre) ls.

(** The name of the cluster of the sink at position [idx]. *)
Definition sink_cluster_name (idx : nat) : string :=
  "otel_metric_sink_" +:+ fmt.FormatInt (Z.of_nat idx).

(** The name a line of the clusters gives to a cluster: the clusters of the
    template open with their [name], that of the xDS server has it further
    down. *)
Definition cluster_name_of (l : string) : option string :=
  match strip_prefix "  - name: " l with
  | Some n => Some n
  | None => strip_prefix "    name: " l
  end.

(** The names of the clusters of the document, in its order. *)
Definition cluster_names (p : bootstrapParameters.t) : list string :=
  omap cluster_name_of (clusters_lines p).

(** A line that opens a section of the document: it starts in the first
    column, and with no dash. *)
Definition is_section_key (l : string) : bool :=
  match l with
  | "" => false
  | String c _ => negb (Ascii.eqb c " ") && negb (Ascii.eqb c "-")
  end.

(** The lines of [ls] for which [P] holds. *)
Definition keep (P : string → bool) (ls : list string) : list string :=
  omap (λ l, if P l then Some l else None) ls.

(** A line of white space, or of nothing. *)
Fixpoint is_blank (l : string) : bool :=
  match l with
  | "" => true
  | String c l' => template.isSpace c && is_blank l'
  end.

(** A line that starts in the first column. *)
Definition in_first_column (l : string) : bool :=
  match l with
  | "" => false
  | String c _ => negb (Ascii.eqb c " ")
  end.

(** ** The rendered text, line by line *)

(** Whether a string holds a line feed. *)
Fixpoint has_line_feed (s : string) : bool :=
  match s with
  | "" => false
  | String c s' => Ascii.eqb c (ascii_of_nat 10) || has_line_feed s'
  end.

(** The lines of a text: what stands before its first line feed, between
    two line feeds that follow each other, and after the last one. *)
Fixpoint text_lines (s : string) : list string :=
  match s with
  | "" => [""]
  | String c s' =>
      if Ascii.eqb c (ascii_of_nat 10) then "" :: text_lines s'
      else match text_lines s' with
           | l :: ls => String c l :: ls
           | [] => [String c ""]
           end
  end.

(** The strings of the policy that the template writes: the hosts of the
    targets, the prefixes and the suffixes as they are, and the regular
    expressions as [js] gives them. *)
Definition policy_strings (JSEscapeString : string → string)
    (pm : option egcfgv1a1.ProxyMetrics) : list string :=
  (egcfgv1a1.Host <$> otel_targets pm)
  ++ caller_prefixes pm ++ caller_suffixes pm
  ++ (JSEscapeString <$> caller_regexps pm).

(** None of the strings of the policy holds a line feed. *)
Definition line_feed_free (JSEscapeString : string → string)
    (pm : option egcfgv1a1.ProxyMetrics) : bool :=
  forallb (λ s, negb (has_line_feed s)) (policy_strings JSEscapeString pm).

(** A policy with one sink, at the host [host], and nothing else. *)
Definition policy_with_host (host : string) : egcfgv1a1.ProxyMetrics :=
  {| egcfgv1a1.Prometheus := None;
     egcfgv1a1.Sinks :=
       [ {| egcfgv1a1.OpenTelemetry :=
              Some {| egcfgv1a1.Host := host; egcfgv1a1.Port := 4317 |} |} ];
     egcfgv1a1.StatsMatcher := None |}.

(** A policy with one inclusion prefix, [prefix], and nothing else. *)
Definition policy_with_prefix (prefix : string) : egcfgv1a1.ProxyMetrics :=
  {| egcfgv1a1.Prometheus := None;
     egcfgv1a1.Sinks := [];
     egcfgv1a1.StatsMatcher :=
       Some {| egcfgv1a1.InclusionPrefixs := [prefix];
               egcfgv1a1.InclusionSuffixs := [];
               egcfgv1a1.InclusionRegexps := [] |} |}.

(** * Properties *)

(** ** The library functions on examples *)

Example Split_required :
  strings.Split "cluster_manager,listener_manager,server,cluster.xds-grpc" ","
  = ["cluster_manager"; "listener_manager"; "server"; "cluster.xds-grpc"].
Proof. reflexivity. Qed.

Example Split_edges :
  strings.Split "" "," = [""] ∧ strings.Split "a,,b," "," = ["a"; ""; "b"; ""] ∧
  strings.Split "a--b---c" "--" = ["a"; "b"; "-c"].
Proof. repeat split; reflexivity. Qed.

Example FormatInt_examples :
  fmt.FormatInt 0 = "0" ∧ fmt.FormatInt 19000 = "19000" ∧ fmt.FormatInt (-42) = "-42".
Proof. repeat split; reflexivity. Qed.

(** ** Strings and sequences of lines *)

Lemma string_app_assoc (a b c : string) : (a +:+ b) +:+ c = a +:+ b +:+ c.
Proof.
  induction a as [|x a IH]; [done|].
  change (String x ((a +:+ b) +:+ c) = String x (a +:+ b +:+ c)). by rewrite IH.
Qed.

Lemma string_app_nil_r (a : string) : a +:+ "" = a.
Proof.
  induction a as [|x a IH]; [done|].
  change (String x (a +:+ "") = String x a). by rewrite IH.
Qed.

Lemma concat_nil : strings.concat [] = "".
Proof. done. Qed.

Lemma concat_cons (s : string) (ss : list string) :
  strings.concat (s :: ss) = s +:+ strings.concat ss.
Proof. done. Qed.

Lemma concat_app (l1 l2 : list string) :
  strings.concat (l1 ++ l2) = strings.concat l1 +:+ strings.concat l2.
Proof.
  induction l1 as [|s l1 IH]; [done|].
  rewrite <- app_comm_cons, !concat_cons, IH. by rewrite string_app_assoc.
Qed.

Lemma nlines_nil : nlines [] = "".
Proof. done. Qed.

Lemma nlines_cons (l : string) (ls : list string) :
  nlines (l :: ls) = nl +:+ l +:+ nlines ls.
Proof. done. Qed.

Lemma nlines_app (l1 l2 : list string) : nlines (l1 ++ l2) = nlines l1 +:+ nlines l2.
Proof.
  induction l1 as [|l l1 IH]; [done|].
  rewrite <- app_comm_cons, !nlines_cons, IH. by rewrite !string_app_assoc.
Qed.

Lemma lines_cons (l : string) (ls : list string) : lines (l :: ls) = l +:+ nlines ls.
Proof.
  revert l. induction ls as [|l' ls IH]; intros l.
  - by rewrite nlines_nil, string_app_nil_r.
  - rewrite nlines_cons. change (lines (l :: l' :: ls)) with (l +:+ nl +:+ lines (l' :: ls)).
    by rewrite IH.
Qed.

Lemma nlines_fmap {A} (f : A → string) (l : list A) :
  nlines (f <$> l) = strings.concat ((λ x, nl +:+ f x) <$> l).
Proof.
  induction l as [|x l IH]; [done|].
  rewrite !fmap_cons, nlines_cons, concat_cons, IH. by rewrite string_app_assoc.
Qed.

Lemma nlines_concat {A} (f : A → list string) (l : list A) :
  nlines (concat (f <$> l)) = strings.concat ((λ x, nlines (f x)) <$> l).
Proof.
  induction l as [|x l IH]; [done|].
  rewrite !fmap_cons, concat_cons. cbn [concat]. by rewrite nlines_app, IH.
Qed.

Lemma nlines_concat_imap {A} (f : nat → A → list string) (l : list A) :
  nlines (concat (imap f l)) = strings.concat (imap (λ i x, nlines (f i x)) l).
Proof.
  revert f. induction l as [|x l IH]; intros f; [done|].
  cbn [imap concat]. by rewrite nlines_app, concat_cons, IH.
Qed.

Lemma nlines_stats_sinks_lines (sinks : list metricSink.t) :
  nlines (stats_sinks_lines sinks) =
  match sinks with
  | [] => ""
  | _ :: _ =>
      nl +:+ "stats_sinks:"
      +:+ strings.concat (imap (λ idx _, nlines (stats_sink_lines idx)) sinks)
  end.
Proof.
  destruct sinks as [|s sinks]; [done|].
  unfold stats_sinks_lines. by rewrite nlines_cons, nlines_concat_imap.
Qed.

Lemma concat_leaves (e : cat) (after : list string) :
  strings.concat (leaves e after) = text e +:+ strings.concat after.
Proof.
  revert after. induction e as [s|a IHa b IHb]; intros after; [done|].
  cbn [leaves text]. by rewrite IHa, IHb, string_app_assoc.
Qed.

Lemma text_eq (e1 e2 : cat) :
  strings.concat (leaves e1 []) = strings.concat (leaves e2 []) → text e1 = text e2.
Proof. rewrite !concat_leaves, concat_nil, !string_app_nil_r. done. Qed.

(** [same_text] proves that two concatenations are equal when they have the
    same leaves, up to the cutting of the literal texts. *)
Ltac cat_of t :=
  lazymatch t with
  | String.append ?a ?b =>
      let ra := cat_of a in let rb := cat_of b in constr:(Cat ra rb)
  | _ => constr:(Leaf t)
  end.

Ltac same_text :=
  lazymatch goal with
  | |- ?l = ?r =>
      let el := cat_of l in let er := cat_of r in
      change (text el = text er); apply text_eq; vm_compute; reflexivity
  end.

(** ** Executing a template *)

Import template(wrote, failed, and_then, walk, walkList, walkRange).

Lemma and_then_wrote (s : string) (r : template.outcome) :
  and_then (wrote s) r = prepend s r.
Proof. done. Qed.

Lemma prepend_wrote (s t : string) : prepend s (wrote t) = wrote (s +:+ t).
Proof. done. Qed.

(** A [range] whose iterations all succeed writes what they write, one
    after the other. *)
Lemma walkRange_fmap {A} (one : nat → value → template.outcome) (r : A → value)
    (f : nat → A → string) :
  (∀ k a, one k (r a) = wrote (f k a)) →
  ∀ l k, walkRange one (r <$> l) k = wrote (strings.concat (imap (λ j, f (k + j)) l)).
Proof.
  intros Hone l. induction l as [|a l IH]; intros k; [done|].
  cbn [fmap list_fmap walkRange imap]. rewrite Hone, IH, and_then_wrote, prepend_wrote.
  rewrite concat_cons, Nat.add_0_r. do 3 f_equal.
  apply imap_ext. intros j x _. cbn. f_equal. lia.
Qed.

Lemma walkRange_fmap_0 {A} (one : nat → value → template.outcome) (r : A → value)
    (f : nat → A → string) :
  (∀ k a, one k (r a) = wrote (f k a)) →
  ∀ l, walkRange one (r <$> l) 0 = wrote (strings.concat (imap f l)).
Proof. intros Hone l. by rewrite (walkRange_fmap one r f Hone). Qed.

Lemma walkRange_fmap_const {A} (one : nat → value → template.outcome) (r : A → value)
    (f : A → string) :
  (∀ k a, one k (r a) = wrote (f a)) →
  ∀ l k, walkRange one (r <$> l) k = wrote (strings.concat (f <$> l)).
Proof.
  intros Hone l k. rewrite (walkRange_fmap one r (λ _, f) Hone).
  do 2 f_equal. apply imap_const.
Qed.

(** ** Keeping the first occurrences *)

Section first_occurrences.
Context {A K : Type} `{Countable K} (key : A → K).

Lemma first_occurrences_filter (P : A → Prop) `{∀ x, Decision (P x)} (l : list A) :
  (∀ x y, key x = key y → P x → P y) →
  filter P (first_occurrences key l) = first_occurrences key (filter P l).
Proof.
  intros HP. induction l as [|x l IH]; [done|].
  cbn [first_occurrences]. destruct (decide (P x)) as [Hx|Hx].
  - rewrite !filter_cons_True by done. cbn [first_occurrences]. f_equal.
    rewrite <- IH, !list_filter_filter. apply list_filter_iff. tauto.
  - rewrite !filter_cons_False by done. rewrite <- IH, list_filter_filter.
    apply list_filter_iff. intros y. split; [tauto|]. intros Hy. split; [done|].
    intros Hk. apply Hx. by apply (HP y).
Qed.

Lemma first_occurrences_sublist (l : list A) : first_occurrences key l `sublist_of` l.
Proof.
  induction l as [|x l IH]; [done|]. cbn [first_occurrences].
  apply sublist_skip. etrans; [apply sublist_filter|done].
Qed.

Lemma first_occurrences_keys (l : list A) (k : K) :
  k ∈ key <$> first_occurrences key l ↔ k ∈ key <$> l.
Proof.
  induction l as [|x l IH]; [done|]. cbn [first_occurrences].
  rewrite !fmap_cons, !elem_of_cons, <- IH, !list_elem_of_fmap.
  split.
  - intros [->|(y & -> & [_ Hy]%list_elem_of_filter)]; eauto.
  - intros [->|(y & -> & Hy)]; [by left|].
    destruct (decide (key y = key x)) as [->|Hne]; [by left|].
    right. exists y. split; [done|]. by apply list_elem_of_filter.
Qed.

Lemma first_occurrences_NoDup (l : list A) : NoDup (key <$> first_occurrences key l).
Proof.
  induction l as [|x l IH]; [constructor|]. cbn [first_occurrences].
  rewrite fmap_cons. constructor.
  - intros (y & Hk & [Hy _]%list_elem_of_filter)%list_elem_of_fmap. by apply Hy.
  - eapply sublist_NoDup; [exact IH|]. apply fmap_sublist, sublist_filter.
Qed.

Lemma first_occurrences_length (l : list A) :
  length (first_occurrences key l) = size (list_to_set (C := gset K) (key <$> l)).
Proof.
  rewrite <- (length_fmap key), <- (size_list_to_set (C := gset K))
    by apply first_occurrences_NoDup.
  f_equal. apply set_eq. intros k. rewrite !elem_of_list_to_set.
  apply first_occurrences_keys.
Qed.
End first_occurrences.

Lemma filter_all {A} (P : A → Prop) `{∀ x, Decision (P x)} (l : list A) :
  (∀ x, x ∈ l → P x) → filter P l = l.
Proof.
  induction l as [|x l IH]; intros Hl; [done|].
  rewrite filter_cons_True by (apply Hl; left).
  f_equal. apply IH. intros y Hy. apply Hl. by right.
Qed.

(** ** The loop over the sinks *)

Lemma foldl_sinkLoopBody (sinks : list egcfgv1a1.MetricSink) (addresses : sets.String)
    (metricSinks : list metricSink.t) :
  (foldl sinkLoopBody (addresses, metricSinks) sinks).2
  = metricSinks
    ++ (to_metricSink
        <$> first_occurrences sink_key
              (filter (λ t, sink_key t ∉ addresses) (omap egcfgv1a1.OpenTelemetry sinks))).
Proof.
  revert addresses metricSinks.
  induction sinks as [|[[t|]] sinks IH]; intros addresses metricSinks.
  - cbn. by rewrite app_nil_r.
  - cbn [foldl sinkLoopBody egcfgv1a1.OpenTelemetry omap list_omap].
    fold (sink_key t). unfold sets.Has, sets.Insert. case_bool_decide as Hin.
    + rewrite IH, filter_cons_False by tauto. done.
    + rewrite IH, filter_cons_True by done. cbn [first_occurrences].
      rewrite fmap_cons, <- app_assoc. cbn [app]. do 3 f_equal.
      rewrite first_occurrences_filter by congruence.
      rewrite list_filter_filter. f_equal. apply list_filter_iff.
      intros y. rewrite not_elem_of_union, not_elem_of_singleton. tauto.
  - cbn [foldl sinkLoopBody egcfgv1a1.OpenTelemetry omap list_omap]. apply IH.
Qed.

Lemma sinkLoop_first_occurrences (sinks : list egcfgv1a1.MetricSink) :
  sinkLoop sinks
  = to_metricSink <$> first_occurrences sink_key (omap egcfgv1a1.OpenTelemetry sinks).
Proof.
  unfold sinkLoop, sets.NewString. rewrite foldl_sinkLoopBody. cbn [app].
  do 2 f_equal. apply filter_all. intros t _. apply not_elem_of_empty.
Qed.

(** ** The key of a sink *)

Lemma colon_free_app_colon (a b : string) : ¬ colon_free (a +:+ ":" +:+ b).
Proof.
  induction a as [|c a IH].
  - intros [Hc _]. by apply Hc.
  - intros [_ Ha]. by apply IH.
Qed.

Lemma app_colon_inj (h1 h2 d1 d2 : string) :
  colon_free d1 → colon_free d2 →
  h1 +:+ ":" +:+ d1 = h2 +:+ ":" +:+ d2 → h1 = h2 ∧ d1 = d2.
Proof.
  intros Hd1 Hd2. revert h2.
  induction h1 as [|c h1 IH]; intros [|c' h2] Heq.
  - by injection Heq.
  - injection Heq as _ Heq. change (d1 = h2 +:+ ":" +:+ d2) in Heq. subst d1.
    by apply colon_free_app_colon in Hd1.
  - injection Heq as _ Heq. change (h1 +:+ ":" +:+ d1 = d2) in Heq. subst d2.
    by apply colon_free_app_colon in Hd2.
  - injection Heq as -> Heq. destruct (IH _ Heq) as [-> ->]. done.
Qed.

Lemma string_of_uint_colon_free (d : Decimal.uint) :
  colon_free (DecimalString.NilEmpty.string_of_uint d).
Proof. induction d; cbn; done. Qed.

Lemma FormatInt_colon_free (n : Z) : colon_free (fmt.FormatInt n).
Proof.
  unfold fmt.FormatInt. destruct (Z.to_int n) as [d|d]; cbn.
  - apply string_of_uint_colon_free.
  - split; [done|]. apply string_of_uint_colon_free.
Qed.

Lemma FormatInt_inj (a b : Z) : fmt.FormatInt a = fmt.FormatInt b → a = b.
Proof.
  unfold fmt.FormatInt. intros Heq. apply DecimalZ.to_int_inj.
  apply (f_equal DecimalString.NilEmpty.int_of_string) in Heq.
  rewrite !DecimalString.NilEmpty.isi in Heq. by injection Heq.
Qed.

Lemma Sprintf_s_colon_d_inj (h1 h2 : string) (p1 p2 : Z) :
  fmt.Sprintf_s_colon_d h1 p1 = fmt.Sprintf_s_colon_d h2 p2 ↔ h1 = h2 ∧ p1 = p2.
Proof.
  split; [|by intros [-> ->]].
  intros [-> Hp]%app_colon_inj; [|apply FormatInt_colon_free..].
  split; [done|]. by apply FormatInt_inj.
Qed.

Lemma sink_key_inj (t1 t2 : egcfgv1a1.OpenTelemetrySink) :
  sink_key t1 = sink_key t2 ↔ to_metricSink t1 = to_metricSink t2.
Proof.
  unfold sink_key. rewrite Sprintf_s_colon_d_inj. destruct t1, t2; cbn.
  split; [by intros [-> ->]|]. by intros [= -> ->].
Qed.

Lemma first_occurrences_fmap {A B K : Type} `{EqDecision K} `{EqDecision B}
    (key : A → K) (f : A → B) (l : list A) :
  (∀ x y, key x = key y ↔ f x = f y) →
  f <$> first_occurrences key l = first_occurrences id (f <$> l).
Proof.
  intros Hkey. induction l as [|x l IH]; [done|].
  rewrite fmap_cons. cbn [first_occurrences]. rewrite fmap_cons. f_equal.
  rewrite <- IH. clear IH. induction (first_occurrences key l) as [|y k IHk]; [done|].
  rewrite fmap_cons. destruct (decide (key y = key x)) as [Heq|Hne].
  - rewrite filter_cons_False by tauto.
    rewrite filter_cons_False; [done|]. unfold id. rewrite <- Hkey. tauto.
  - rewrite filter_cons_True by done.
    rewrite filter_cons_True; [|unfold id; by rewrite <- Hkey].
    rewrite fmap_cons. by f_equal.
Qed.

Lemma omap_eq_nil {A B} (f : A → option B) (l : list A) :
  omap f l = [] ↔ Forall (λ x, f x = None) l.
Proof.
  induction l as [|x l IH]; [by split; [constructor|]|].
  cbn [omap list_omap]. rewrite Forall_cons, <- IH. destruct (f x); [|tauto].
  split; [done|]. by intros [? _].
Qed.

Lemma first_occurrences_nil {A K : Type} `{EqDecision K} (key : A → K) (l : list A) :
  first_occurrences key l = [] ↔ l = [].
Proof. by destruct l. Qed.

Lemma app_singleton_neq {A} (l : list A) (x : A) : l ++ [x] ≠ l.
Proof. intros Heq%(f_equal length). rewrite length_app in Heq. cbn in Heq. lia. Qed.

(** ** The parameters *)

Lemma buildParameters_eq (pm : option egcfgv1a1.ProxyMetrics) :
  buildParameters pm =
  {| bootstrapParameters.XdsServer := fixed_XdsServer;
     bootstrapParameters.AdminServer := fixed_AdminServer;
     bootstrapParameters.ReadyServer := fixed_ReadyServer;
     bootstrapParameters.EnablePrometheus := bool_decide (prometheus_present pm);
     bootstrapParameters.OtelMetricSinks :=
       to_metricSink <$> first_occurrences sink_key (otel_targets pm);
     bootstrapParameters.ProxyStatsMatcher :=
       {| ProxyStatsMatcherParameters.InclusionPrefixs := caller_prefixes pm ++ baseline_prefixes;
          ProxyStatsMatcherParameters.InclusionSuffixs := caller_suffixes pm;
          ProxyStatsMatcherParameters.InclusionRegexps := caller_regexps pm |} |}.
Proof.
  destruct pm as [[[provider|] sinks [matcher|]]|]; unfold buildParameters;
    cbn [egcfgv1a1.Prometheus egcfgv1a1.Sinks egcfgv1a1.StatsMatcher];
    rewrite ?sinkLoop_first_occurrences; reflexivity.
Qed.

Lemma sinkLoop_snoc_None (sinks : list egcfgv1a1.MetricSink) :
  sinkLoop (sinks ++ [ {| egcfgv1a1.OpenTelemetry := None |} ]) = sinkLoop sinks.
Proof. unfold sinkLoop. rewrite foldl_snoc. cbn. by destruct (foldl _ _ _). Qed.

Lemma sinkLoop_skip (l1 l2 : list egcfgv1a1.MetricSink) :
  sinkLoop (l1 ++ {| egcfgv1a1.OpenTelemetry := None |} :: l2) = sinkLoop (l1 ++ l2).
Proof. rewrite !sinkLoop_first_occurrences, !omap_app. done. Qed.

(** The set [addresses] holds the keys of the sinks kept so far. *)
Lemma sinkLoop_addresses (sinks : list egcfgv1a1.MetricSink) (k : string) :
  let st := foldl sinkLoopBody (sets.NewString, []) sinks in
  k ∈ st.1 ↔
  ∃ m, m ∈ st.2 ∧ k = fmt.Sprintf_s_colon_d (metricSink.Address m) (metricSink.Port m).
Proof.
  induction sinks as [|[[t|]] sinks IH] using rev_ind; cbn zeta in *.
  - cbn. split; [by intros ?%not_elem_of_empty|]. by intros (m & ?%not_elem_of_nil & _).
  - rewrite foldl_snoc. destruct (foldl sinkLoopBody _ sinks) as [addresses metricSinks].
    cbn [sinkLoopBody egcfgv1a1.OpenTelemetry fst snd] in *.
    unfold sets.Has, sets.Insert. case_bool_decide as Hin; [done|].
    cbn [fst snd]. rewrite elem_of_union, elem_of_singleton, IH. split.
    + intros [->|(m & Hm & ->)].
      * exists (to_metricSink t). split; [|done]. apply elem_of_app. right. by left.
      * exists m. split; [|done]. apply elem_of_app. by left.
    + intros (m & [Hm|Hm%list_elem_of_singleton]%elem_of_app & ->); [right; eauto|left; by subst].
  - rewrite foldl_snoc. destruct (foldl sinkLoopBody _ sinks) as [addresses metricSinks].
    done.
Qed.

Lemma sinkLoop_snoc (sinks : list egcfgv1a1.MetricSink) (t : egcfgv1a1.OpenTelemetrySink) :
  sinkLoop (sinks ++ [ {| egcfgv1a1.OpenTelemetry := Some t |} ])
  = if bool_decide (to_metricSink t ∈ sinkLoop sinks) then sinkLoop sinks
    else sinkLoop sinks ++ [to_metricSink t].
Proof.
  unfold sinkLoop. rewrite foldl_snoc.
  pose proof (sinkLoop_addresses sinks (sink_key t)) as Hinv. cbn zeta in Hinv.
  destruct (foldl sinkLoopBody _ sinks) as [addresses metricSinks].
  cbn [sinkLoopBody egcfgv1a1.OpenTelemetry fst snd] in *. fold (sink_key t).
  unfold sets.Has.
  assert (sink_key t ∈ addresses ↔ to_metricSink t ∈ metricSinks) as Hiff.
  { rewrite Hinv. split.
    - intros ([h p] & Hm & [Hh Hp]%Sprintf_s_colon_d_inj). cbn in Hh, Hp. subst h p. exact Hm.
    - intros Hm. by exists (to_metricSink t). }
  do 2 case_bool_decide; tauto || done.
Qed.

(** ** Counting the lines of the document *)

Lemma occurrences_app (x : string) (l1 l2 : list string) :
  occurrences x (l1 ++ l2) = occurrences x l1 + occurrences x l2.
Proof. unfold occurrences. by rewrite filter_app, length_app. Qed.

Lemma occurrences_cons (x l : string) (ls : list string) :
  occurrences x (l :: ls) = (if bool_decide (l = x) then 1 else 0) + occurrences x ls.
Proof.
  unfold occurrences. case_bool_decide.
  - by rewrite filter_cons_True.
  - by rewrite filter_cons_False.
Qed.

Lemma occurrences_none (x : string) (ls : list string) :
  Forall (λ l, l ≠ x) ls → occurrences x ls = 0.
Proof.
  induction 1 as [|l ls Hl _ IH]; [done|].
  rewrite occurrences_cons, IH. by case_bool_decide.
Qed.

Lemma occurrences_fmap_none {A} (x : string) (f : A → string) (l : list A) :
  (∀ a, f a ≠ x) → occurrences x (f <$> l) = 0.
Proof. intros Hf. apply occurrences_none, Forall_fmap, Forall_forall. intros a _. apply Hf. Qed.

Lemma occurrences_concat_none {A} (x : string) (f : A → list string) (l : list A) :
  (∀ a, Forall (λ l, l ≠ x) (f a)) → occurrences x (concat (f <$> l)) = 0.
Proof.
  intros Hf. induction l as [|a l IH]; [done|].
  rewrite fmap_cons. cbn [concat]. by rewrite occurrences_app, IH, occurrences_none.
Qed.

Lemma occurrences_concat_imap_none {A} (x : string) (f : nat → A → list string)
    (l : list A) :
  (∀ i a, Forall (λ l, l ≠ x) (f i a)) → occurrences x (concat (imap f l)) = 0.
Proof.
  intros Hf. revert f Hf. induction l as [|a l IH]; intros f Hf; [done|].
  cbn [imap concat]. rewrite occurrences_app, IH, occurrences_none; [done|apply Hf|].
  intros i b. apply Hf.
Qed.

(** Two strings that differ at the index [n] are different. *)
Lemma differ_at (n : nat) (a b : string) : String.get n a ≠ String.get n b → a ≠ b.
Proof. by intros Hn ->. Qed.

Ltac differ_at_index n :=
  apply (differ_at n); vm_compute; discriminate.

Ltac lines_differ :=
  first [ differ_at_index 0 | differ_at_index 2 | differ_at_index 6 | differ_at_index 8
        | differ_at_index 10 | differ_at_index 16 | differ_at_index 4
        | differ_at_index 12 | differ_at_index 14 | differ_at_index 18 ].

(** *** The lines that start with a given text *)

Section filter.
Context {A : Type} (P : string → Prop) `{∀ l, Decision (P l)}.

Lemma filter_fmap_none (f : A → string) (l : list A) :
  (∀ a, ¬ P (f a)) → filter P (f <$> l) = [].
Proof.
  intros Hf. induction l as [|a l IH]; [done|].
  rewrite fmap_cons, filter_cons_False by apply Hf. done.
Qed.

Lemma filter_fmap_all (f : A → string) (l : list A) :
  (∀ a, P (f a)) → filter P (f <$> l) = f <$> l.
Proof.
  intros Hf. induction l as [|a l IH]; [done|].
  rewrite fmap_cons, filter_cons_True by apply Hf. by rewrite IH.
Qed.

Lemma filter_concat_none (f : A → list string) (l : list A) :
  (∀ a, filter P (f a) = []) → filter P (concat (f <$> l)) = [].
Proof.
  intros Hf. induction l as [|a l IH]; [done|].
  rewrite fmap_cons. cbn [concat]. by rewrite filter_app, Hf, IH.
Qed.

Lemma filter_concat_imap (f : nat → A → list string) (g : nat → A → list string)
    (l : list A) :
  (∀ i a, filter P (f i a) = g i a) →
  filter P (concat (imap f l)) = concat (imap g l).
Proof.
  revert f g. induction l as [|a l IH]; intros f g Hf; [done|].
  cbn [imap concat]. rewrite filter_app, Hf. f_equal. apply IH. intros i b. apply Hf.
Qed.
End filter.

Lemma concat_imap_nil {A B} (l : list A) : concat (imap (λ _ _, @nil B) l) = [].
Proof.
  assert (∀ f : nat → A → list B, (∀ i a, f i a = []) → concat (imap f l) = []) as Hgen.
  { induction l as [|a l IH]; intros f Hf; [done|]. cbn [imap concat].
    rewrite Hf. apply IH. intros i b. apply Hf. }
  by apply Hgen.
Qed.

Lemma concat_imap_singleton {A B} (h : nat → A → B) (l : list A) :
  concat (imap (λ i a, [h i a]) l) = imap h l.
Proof.
  revert h. induction l as [|a l IH]; intros h; [done|].
  cbn [imap concat app]. f_equal. apply (IH (h ∘ S)).
Qed.

Lemma prefix_append (a b : string) : String.prefix a (a +:+ b) = true.
Proof.
  induction a as [|c a IH]; [by destruct b|].
  change (String.prefix (String c a) (String c (a +:+ b)) = true).
  cbn. destruct (ascii_dec c c); [exact IH|done].
Qed.

(** The lines of a block that start with a given text, one line of the block
    after the other. *)
Ltac filter_block :=
  intros;
  unfold starting_with, prefix_pattern, suffix_pattern, regex_pattern_lines,
    stats_sink_lines, otel_metric_sink_cluster_lines;
  repeat first
    [ rewrite filter_cons_True by first [apply prefix_append | vm_compute; reflexivity]
    | rewrite filter_cons_False by (vm_compute; discriminate) ];
  reflexivity.

(** The blocks that are left are computed. *)
Ltac compute_blocks :=
  repeat match goal with
         | |- context [starting_with ?pre ?l] =>
             let r := eval vm_compute in (starting_with pre l) in
             replace (starting_with pre l) with r by (vm_compute; reflexivity)
         end.

Ltac not_starting := intros; vm_compute; discriminate.
Ltac starting := intros; first [apply prefix_append | vm_compute; reflexivity].

Ltac no_such_line :=
  intros;
  unfold prefix_pattern, suffix_pattern, regex_pattern_lines, stats_sink_lines,
    otel_metric_sink_cluster_lines;
  repeat first [ apply Forall_nil_2 | apply Forall_cons_2 | lines_differ ].

(** The execution of a template is unfolded step by step. *)
#[local] Arguments walkRange : simpl never.
#[local] Arguments and_then : simpl never.
#[local] Arguments wrote : simpl never.

Section properties.
Variable JSEscapeString : string → string.

(** *** The bootstrap template writes the document, and never fails *)

Ltac one_iteration :=
  intros ? ?; simpl; cbv [and_then wrote fst snd]; f_equal;
  cbv [prefix_pattern suffix_pattern regex_pattern_lines stats_sink_lines
       otel_metric_sink_cluster_lines nlines foldr];
  same_text.

Lemma Execute_bootstrapTmpl (p : bootstrapParameters.t) :
  template.Execute JSEscapeString bootstrapTmpl (reflect.parameters p)
  = wrote (document JSEscapeString p).
Proof.
  destruct p as [[xa xp] [aa ap al] [ra rp rr] prom sinks [pre suf reg]].
  unfold document, document_lines, listener_lines, clusters_lines.
  cbn [bootstrapParameters.AdminServer bootstrapParameters.ReadyServer
       bootstrapParameters.OtelMetricSinks bootstrapParameters.ProxyStatsMatcher
       bootstrapParameters.EnablePrometheus bootstrapParameters.XdsServer].
  unfold stats_config_lines.
  cbn [ProxyStatsMatcherParameters.InclusionPrefixs
       ProxyStatsMatcherParameters.InclusionSuffixs
       ProxyStatsMatcherParameters.InclusionRegexps].
  change (admin_lines ?a) with ("admin:" :: tail (admin_lines a)).
  rewrite <- app_comm_cons, lines_cons.
  rewrite !nlines_app, (nlines_cons "  clusters:"), !nlines_app.
  rewrite nlines_fmap, nlines_fmap, nlines_concat, nlines_concat_imap,
    nlines_stats_sinks_lines.
  cbv [admin_lines dynamic_resources_lines ready_listener_lines prometheus_route_lines
       ready_filters_lines prometheus_cluster_lines xds_cluster_lines
       layered_runtime_lines tail
       adminServerParameters.AccessLogPath adminServerParameters.Address
       adminServerParameters.Port readyServerParameters.Address
       readyServerParameters.Port readyServerParameters.ReadinessPath
       xdsServerParameters.Address xdsServerParameters.Port].
  match goal with |- _ = ?r => set (R := r) end.
  unfold template.Execute.
  let t := eval vm_compute in (template.Root bootstrapTmpl) in
  assert (E : template.Root bootstrapTmpl = t) by (vm_compute; reflexivity);
  rewrite E; clear E.
  simpl.
  rewrite (walkRange_fmap_const _ VString (λ s, nl +:+ prefix_pattern s))
    with (l := pre) by one_iteration.
  rewrite (walkRange_fmap_const _ VString (λ s, nl +:+ suffix_pattern s))
    with (l := suf) by one_iteration.
  rewrite (walkRange_fmap_const _ VString
             (λ s, nlines (regex_pattern_lines JSEscapeString s)))
    with (l := reg) by one_iteration.
  rewrite ?(walkRange_fmap_0 _ reflect.sink (λ k _, nlines (stats_sink_lines k)))
    with (l := sinks) by one_iteration.
  rewrite ?(walkRange_fmap_0 _ reflect.sink
              (λ k s, nlines (otel_metric_sink_cluster_lines k s)))
    with (l := sinks) by one_iteration.
  remember (strings.concat (imap (λ k _, nlines (stats_sink_lines k)) sinks))
    as S1 eqn:E1.
  remember (strings.concat
              (imap (λ k s, nlines (otel_metric_sink_cluster_lines k s)) sinks))
    as S2 eqn:E2.
  clear E1 E2.
  destruct prom, sinks as [|s0 sinks]; simpl.
  all: cbv [and_then wrote fst snd].
  all: subst R; cbv [wrote]; f_equal.
  all: cbv [nlines foldr].
  all: same_text.
Qed.

(** A line that is none of the lines written for a pattern or for a sink
    stands in the document as often as among its fixed lines. *)
Lemma occurrences_document (x : string) (pm : option egcfgv1a1.ProxyMetrics) :
  (∀ s, prefix_pattern s ≠ x) →
  (∀ s, suffix_pattern s ≠ x) →
  (∀ s, Forall (λ l, l ≠ x) (regex_pattern_lines JSEscapeString s)) →
  (∀ i, Forall (λ l, l ≠ x) (stats_sink_lines i)) →
  (∀ i s, Forall (λ l, l ≠ x) (otel_metric_sink_cluster_lines i s)) →
  let p := buildParameters pm in
  occurrences x (document_lines JSEscapeString p)
  = occurrences x
      (fixed_lines (bootstrapParameters.EnablePrometheus p)
         (bool_decide (bootstrapParameters.OtelMetricSinks p ≠ []))).
Proof.
  intros Hpre Hsuf Hreg Hsink Hcluster. cbn zeta. rewrite buildParameters_eq.
  unfold document_lines, listener_lines, clusters_lines, stats_config_lines, fixed_lines.
  cbn [bootstrapParameters.AdminServer bootstrapParameters.ReadyServer
       bootstrapParameters.OtelMetricSinks bootstrapParameters.ProxyStatsMatcher
       bootstrapParameters.EnablePrometheus bootstrapParameters.XdsServer
       ProxyStatsMatcherParameters.InclusionPrefixs
       ProxyStatsMatcherParameters.InclusionSuffixs
       ProxyStatsMatcherParameters.InclusionRegexps].
  rewrite (app_comm_cons _ _ "  clusters:").
  rewrite !occurrences_app.
  rewrite !occurrences_fmap_none, occurrences_concat_none, occurrences_concat_imap_none
    by done.
  assert (occurrences x (stats_sinks_lines
            (to_metricSink <$> first_occurrences sink_key (otel_targets pm)))
          = occurrences x
              (if bool_decide (to_metricSink <$> first_occurrences sink_key (otel_targets pm)
                               ≠ [])
               then ["stats_sinks:"] else [])) as ->.
  { destruct (to_metricSink <$> _) as [|s sinks]; [done|].
    unfold stats_sinks_lines. rewrite bool_decide_true by done.
    rewrite !occurrences_cons, occurrences_concat_imap_none by done. done. }
  change ("  clusters:" :: ?l) with (["  clusters:"] ++ l).
  rewrite !occurrences_app. change (occurrences x []) with 0. lia.
Qed.

Lemma GetRenderedBootstrapConfig_document (pm : option egcfgv1a1.ProxyMetrics) :
  GetRenderedBootstrapConfig JSEscapeString pm
  = (document JSEscapeString (buildParameters pm), None).
Proof.
  unfold GetRenderedBootstrapConfig, GetRenderedBootstrapConfigWith, renderWith.
  cbn [bootstrapConfig.parameters]. by rewrite Execute_bootstrapTmpl.
Qed.

Lemma starting_with_document (pre : string) (pm : option egcfgv1a1.ProxyMetrics) :
  let p := buildParameters pm in
  starting_with pre (document_lines JSEscapeString p)
  = starting_with pre (admin_lines fixed_AdminServer)
    ++ starting_with pre
         ["stats_config:"; "  stats_matcher:"; "    inclusion_list:"; "      patterns:"]
    ++ starting_with pre (prefix_pattern <$> (caller_prefixes pm ++ baseline_prefixes))
    ++ starting_with pre (suffix_pattern <$> caller_suffixes pm)
    ++ starting_with pre (concat (regex_pattern_lines JSEscapeString <$> caller_regexps pm))
    ++ starting_with pre dynamic_resources_lines
    ++ starting_with pre (stats_sinks_lines (bootstrapParameters.OtelMetricSinks p))
    ++ starting_with pre (ready_listener_lines fixed_ReadyServer)
    ++ starting_with pre
         (if bootstrapParameters.EnablePrometheus p then prometheus_route_lines else [])
    ++ starting_with pre (ready_filters_lines fixed_ReadyServer)
    ++ starting_with pre
         ("  clusters:"
          :: (if bootstrapParameters.EnablePrometheus p
              then prometheus_cluster_lines fixed_AdminServer else []))
    ++ starting_with pre
         (concat (imap (λ i t, otel_metric_sink_cluster_lines i (to_metricSink t))
                    (first_occurrences sink_key (otel_targets pm))))
    ++ starting_with pre (xds_cluster_lines fixed_XdsServer)
    ++ starting_with pre layered_runtime_lines.
Proof.
  cbn zeta. rewrite buildParameters_eq.
  unfold document_lines, listener_lines, clusters_lines, stats_config_lines, starting_with.
  cbn [bootstrapParameters.AdminServer bootstrapParameters.ReadyServer
       bootstrapParameters.OtelMetricSinks bootstrapParameters.ProxyStatsMatcher
       bootstrapParameters.EnablePrometheus bootstrapParameters.XdsServer
       ProxyStatsMatcherParameters.InclusionPrefixs
       ProxyStatsMatcherParameters.InclusionSuffixs
       ProxyStatsMatcherParameters.InclusionRegexps].
  rewrite imap_fmap, (app_comm_cons _ _ "  clusters:").
  rewrite !filter_app, <- !app_assoc. done.
Qed.

Lemma sink_cluster_names (pm : option egcfgv1a1.ProxyMetrics) :
  starting_with "  - name: otel_metric_sink_"
    (document_lines JSEscapeString (buildParameters pm))
  = imap (λ i _, "  - name: otel_metric_sink_" +:+ fmt.FormatInt (Z.of_nat i))
      (first_occurrences sink_key (otel_targets pm)).
Proof.
  rewrite starting_with_document.
  unfold starting_with at 3 4 5 7 12.
  rewrite !filter_fmap_none by not_starting.
  rewrite (filter_concat_none _ (regex_pattern_lines JSEscapeString)) by filter_block.
  rewrite (filter_concat_imap _ _
             (λ i _, ["  - name: otel_metric_sink_" +:+ fmt.FormatInt (Z.of_nat i)]))
    by filter_block.
  rewrite concat_imap_singleton.
  assert (filter (λ l, String.prefix "  - name: otel_metric_sink_" l = true)
            (stats_sinks_lines (bootstrapParameters.OtelMetricSinks (buildParameters pm)))
          = []) as ->.
  { destruct (bootstrapParameters.OtelMetricSinks _) as [|s sinks]; [done|].
    unfold stats_sinks_lines. rewrite filter_cons_False by not_starting.
    rewrite (filter_concat_imap _ _ (λ _ _, [])) by filter_block.
    apply concat_imap_nil. }
  destruct (bootstrapParameters.EnablePrometheus _); compute_blocks;
    cbn [app]; by rewrite ?app_nil_r.
Qed.

Lemma prefix_pattern_lines (pm : option egcfgv1a1.ProxyMetrics) :
  starting_with "      - prefix: " (document_lines JSEscapeString (buildParameters pm))
  = prefix_pattern <$> (caller_prefixes pm ++ baseline_prefixes).
Proof.
  rewrite starting_with_document.
  unfold starting_with at 3 4 5 7 12.
  rewrite filter_fmap_all by starting.
  rewrite (filter_fmap_none _ suffix_pattern) by not_starting.
  rewrite (filter_concat_none _ (regex_pattern_lines JSEscapeString)) by filter_block.
  rewrite (filter_concat_imap _ _ (λ _ _, [])) by filter_block.
  rewrite concat_imap_nil.
  assert (filter (λ l, String.prefix "      - prefix: " l = true)
            (stats_sinks_lines (bootstrapParameters.OtelMetricSinks (buildParameters pm)))
          = []) as ->.
  { destruct (bootstrapParameters.OtelMetricSinks _) as [|s sinks]; [done|].
    unfold stats_sinks_lines. rewrite filter_cons_False by not_starting.
    rewrite (filter_concat_imap _ _ (λ _ _, [])) by filter_block.
    apply concat_imap_nil. }
  destruct (bootstrapParameters.EnablePrometheus _); compute_blocks;
    cbn [app]; by rewrite ?app_nil_r.
Qed.

(** The sink clusters among the lines that the template writes: one for
    each distinct key ["host:port"] among the sinks that carry an
    OpenTelemetry target, in the order in which the keys come first; the
    cluster at position [i] is named [otel_metric_sink_<i>]. *)
Lemma sink_cluster_blocks (pm : option egcfgv1a1.ProxyMetrics) :
  let p := buildParameters pm in
  let kept := first_occurrences sink_key (otel_targets pm) in
  GetRenderedBootstrapConfig JSEscapeString pm = (document JSEscapeString p, None)
  ∧ clusters_lines p
    = "  clusters:"
      :: (if bootstrapParameters.EnablePrometheus p
          then prometheus_cluster_lines fixed_AdminServer else [])
      ++ concat (imap (λ i t, otel_metric_sink_cluster_lines i (to_metricSink t)) kept)
      ++ xds_cluster_lines fixed_XdsServer
  ∧ (∀ i t, head (otel_metric_sink_cluster_lines i (to_metricSink t))
            = Some ("  - name: otel_metric_sink_" +:+ fmt.FormatInt (Z.of_nat i)))
  ∧ starting_with "  - name: otel_metric_sink_" (document_lines JSEscapeString p)
    = imap (λ i _, "  - name: otel_metric_sink_" +:+ fmt.FormatInt (Z.of_nat i)) kept
  ∧ length kept = size (list_to_set (C := gset string) (sink_key <$> otel_targets pm))
  ∧ NoDup (sink_key <$> kept)
  ∧ kept `sublist_of` otel_targets pm.
Proof.
  cbn zeta. split; [apply GetRenderedBootstrapConfig_document|].
  split; [|split; [done|split; [apply sink_cluster_names|split; [|split]]]].
  - rewrite buildParameters_eq. unfold clusters_lines.
    cbn [bootstrapParameters.EnablePrometheus bootstrapParameters.AdminServer
         bootstrapParameters.OtelMetricSinks bootstrapParameters.XdsServer].
    by rewrite imap_fmap.
  - apply first_occurrences_length.
  - apply first_occurrences_NoDup.
  - apply first_occurrences_sublist.
Qed.


(** The prefix patterns among the lines that the template writes: the
    prefixes of the caller in their order, and then the entries of the
    baseline in the order of the baseline. *)
Lemma prefix_pattern_blocks (pm : option egcfgv1a1.ProxyMetrics) :
  let p := buildParameters pm in
  let prefixes := caller_prefixes pm ++ baseline_prefixes in
  strings.Split RequiredEnvoyStatsMatcherInclusionPrefixes "," = baseline_prefixes
  ∧ ProxyStatsMatcherParameters.InclusionPrefixs (bootstrapParameters.ProxyStatsMatcher p)
    = prefixes
  ∧ GetRenderedBootstrapConfig JSEscapeString pm = (document JSEscapeString p, None)
  ∧ stats_config_lines JSEscapeString (bootstrapParameters.ProxyStatsMatcher p)
    = [ "stats_config:"; "  stats_matcher:"; "    inclusion_list:"; "      patterns:" ]
      ++ (prefix_pattern <$> prefixes)
      ++ (suffix_pattern <$> caller_suffixes pm)
      ++ concat (regex_pattern_lines JSEscapeString <$> caller_regexps pm)
  ∧ starting_with "      - prefix: " (document_lines JSEscapeString p)
    = prefix_pattern <$> prefixes
  ∧ length prefixes = length (caller_prefixes pm) + 4.
Proof.
  cbn zeta. split; [done|]. split; [by rewrite buildParameters_eq|].
  split; [apply GetRenderedBootstrapConfig_document|].
  split; [by rewrite buildParameters_eq|].
  split; [apply prefix_pattern_lines|]. by rewrite length_app.
Qed.



(** C4: with no policy at all the rendering succeeds; the document has no
    sink cluster, neither the Prometheus route nor the Prometheus cluster,
    and its inclusion list is the baseline, with no suffix and no regular
    expression. *)
Theorem absent_policy_document :
  let p :=
    {| bootstrapParameters.XdsServer := fixed_XdsServer;
       bootstrapParameters.AdminServer := fixed_AdminServer;
       bootstrapParameters.ReadyServer := fixed_ReadyServer;
       bootstrapParameters.EnablePrometheus := false;
       bootstrapParameters.OtelMetricSinks := [];
       bootstrapParameters.ProxyStatsMatcher :=
         {| ProxyStatsMatcherParameters.InclusionPrefixs := baseline_prefixes;
            ProxyStatsMatcherParameters.InclusionSuffixs := [];
            ProxyStatsMatcherParameters.InclusionRegexps := [] |} |} in
  buildParameters None = p
  ∧ GetRenderedBootstrapConfig JSEscapeString None = (document JSEscapeString p, None)
  ∧ document_lines JSEscapeString p
    = admin_lines fixed_AdminServer
      ++ [ "stats_config:"; "  stats_matcher:"; "    inclusion_list:"; "      patterns:" ]
      ++ (prefix_pattern <$> baseline_prefixes)
      ++ dynamic_resources_lines
      ++ ready_listener_lines fixed_ReadyServer
      ++ ready_filters_lines fixed_ReadyServer
      ++ ["  clusters:"]
      ++ xds_cluster_lines fixed_XdsServer
      ++ layered_runtime_lines
  ∧ starting_with "      - prefix: " (document_lines JSEscapeString p)
    = prefix_pattern <$> baseline_prefixes
  ∧ starting_with "      - suffix: " (document_lines JSEscapeString p) = []
  ∧ starting_with "      - safe_regex:" (document_lines JSEscapeString p) = []
  ∧ starting_with "  - name: otel_metric_sink_" (document_lines JSEscapeString p) = []
  ∧ occurrences "stats_sinks:" (document_lines JSEscapeString p) = 0
  ∧ occurrences "                  prefix: /stats/prometheus"
      (document_lines JSEscapeString p) = 0
  ∧ occurrences "  - name: prometheus_stats" (document_lines JSEscapeString p) = 0.
Proof.
  cbn zeta. split; [done|]. split; [apply (GetRenderedBootstrapConfig_document None)|].
  repeat split; vm_compute; reflexivity.
Qed.

(** C5: the parameters are built for every policy, whatever it holds, and
    every one of their fields is set; a sink without an OpenTelemetry target
    adds no sink to them: it is passed over, it counts for nothing and it
    raises no error. *)
Theorem parameters_always_built (pm : option egcfgv1a1.ProxyMetrics) :
  buildParameters pm
  = {| bootstrapParameters.XdsServer := fixed_XdsServer;
       bootstrapParameters.AdminServer := fixed_AdminServer;
       bootstrapParameters.ReadyServer := fixed_ReadyServer;
       bootstrapParameters.EnablePrometheus := bool_decide (prometheus_present pm);
       bootstrapParameters.OtelMetricSinks :=
         to_metricSink <$> first_occurrences sink_key (otel_targets pm);
       bootstrapParameters.ProxyStatsMatcher :=
         {| ProxyStatsMatcherParameters.InclusionPrefixs :=
              caller_prefixes pm ++ baseline_prefixes;
            ProxyStatsMatcherParameters.InclusionSuffixs := caller_suffixes pm;
            ProxyStatsMatcherParameters.InclusionRegexps := caller_regexps pm |} |}
  ∧ (∀ l1 l2,
       sinkLoop (l1 ++ {| egcfgv1a1.OpenTelemetry := None |} :: l2) = sinkLoop (l1 ++ l2))
  ∧ (∀ sinks,
       sinkLoop sinks
       = sinkLoop (filter (λ s, is_Some (egcfgv1a1.OpenTelemetry s)) sinks))
  ∧ length (bootstrapParameters.OtelMetricSinks (buildParameters pm))
    ≤ length (otel_targets pm).
Proof.
  split; [apply buildParameters_eq|]. split; [apply sinkLoop_skip|]. split.
  - intros sinks. rewrite !sinkLoop_first_occurrences. do 2 f_equal.
    induction sinks as [|[[t|]] sinks IH]; [done| |].
    + rewrite filter_cons_True by (cbn; eauto). cbn. by rewrite IH.
    + rewrite filter_cons_False by (cbn; by intros [? ?]). done.
  - rewrite buildParameters_eq. cbn [bootstrapParameters.OtelMetricSinks].
    rewrite length_fmap. apply sublist_length, first_occurrences_sublist.
Qed.

(** C6: whatever the policy, the fields [XdsServer], [AdminServer] and
    [ReadyServer] of the parameters hold the same constants:
    [envoy-gateway:18000]; [127.0.0.1:19000] with the access log
    [/dev/null]; [0.0.0.0:19001] with the path [/ready]. *)
Theorem infrastructure_fields_fixed (pm : option egcfgv1a1.ProxyMetrics) :
  bootstrapParameters.XdsServer (buildParameters pm)
  = {| xdsServerParameters.Address := "envoy-gateway";
       xdsServerParameters.Port := 18000 |}
  ∧ bootstrapParameters.AdminServer (buildParameters pm)
    = {| adminServerParameters.Address := "127.0.0.1";
         adminServerParameters.Port := 19000;
         adminServerParameters.AccessLogPath := "/dev/null" |}
  ∧ bootstrapParameters.ReadyServer (buildParameters pm)
    = {| readyServerParameters.Address := "0.0.0.0";
         readyServerParameters.Port := 19001;
         readyServerParameters.ReadinessPath := "/ready" |}.
Proof. by destruct pm as [[? ? [?|]]|]. Qed.

(** C7: rendering the same parameters any number of times gives the same
    bytes: the rendered text is a function of the parameters and of nothing
    else, neither of what the configuration held before nor of how often it
    has been rendered. *)
Theorem render_deterministic (b1 b2 : bootstrapConfig.t) :
  bootstrapConfig.parameters b1 = bootstrapConfig.parameters b2 →
  render JSEscapeString b1
  = ({| bootstrapConfig.parameters := bootstrapConfig.parameters b1;
        bootstrapConfig.rendered :=
          document JSEscapeString (bootstrapConfig.parameters b1) |}, None)
  ∧ render JSEscapeString b2 = render JSEscapeString b1
  ∧ ∀ n, Nat.iter (S n) (λ b, (render JSEscapeString b).1) b1
         = (render JSEscapeString b1).1.
Proof.
  intros Hp.
  assert (∀ b, render JSEscapeString b
               = ({| bootstrapConfig.parameters := bootstrapConfig.parameters b;
                     bootstrapConfig.rendered :=
                       document JSEscapeString (bootstrapConfig.parameters b) |},
                  None)) as Hrender.
  { intros b. unfold render, renderWith. by rewrite Execute_bootstrapTmpl. }
  split; [apply Hrender|]. split; [by rewrite !Hrender, Hp|].
  induction n as [|n IH]; [done|].
  rewrite Nat.iter_succ, IH, !Hrender. done.
Qed.


(** The key [stats_sinks] among the lines that the template writes: it is
    there when a sink is left, and not otherwise. *)
Lemma stats_sinks_blocks (pm : option egcfgv1a1.ProxyMetrics) :
  let p := buildParameters pm in
  let sinks := bootstrapParameters.OtelMetricSinks p in
  (sinks = [] ↔ Forall (λ s, egcfgv1a1.OpenTelemetry s = None) (policy_sinks pm))
  ∧ GetRenderedBootstrapConfig JSEscapeString pm = (document JSEscapeString p, None)
  ∧ stats_sinks_lines sinks
    = (if bool_decide (sinks = []) then []
       else "stats_sinks:" :: concat (imap (λ idx _, stats_sink_lines idx) sinks))
  ∧ occurrences "stats_sinks:" (document_lines JSEscapeString p)
    = (if bool_decide (sinks = []) then 0 else 1).
Proof.
  cbn zeta. split; [|split; [apply GetRenderedBootstrapConfig_document|split]].
  - rewrite buildParameters_eq. cbn [bootstrapParameters.OtelMetricSinks].
    unfold otel_targets. rewrite <- omap_eq_nil, <- (first_occurrences_nil sink_key).
    split; [apply fmap_nil_inv|by intros ->].
  - by destruct (bootstrapParameters.OtelMetricSinks _).
  - rewrite occurrences_document by no_such_line.
    destruct (bootstrapParameters.OtelMetricSinks _) as [|s sinks],
      (bootstrapParameters.EnablePrometheus _); reflexivity.
Qed.

(** C10: the key never takes two different sinks for one: a sink is dropped
    exactly when a sink kept before it has the same host and the same port.
    The key is the host, a colon and the decimal digits of the port, which
    hold no colon, so that two keys are equal only when the hosts and the
    ports are, also when a host has colons and digits of its own. *)
Theorem sink_key_never_conflates :
  (∀ h1 p1 h2 p2,
     fmt.Sprintf_s_colon_d h1 p1 = fmt.Sprintf_s_colon_d h2 p2 ↔ h1 = h2 ∧ p1 = p2)
  ∧ (∀ sinks t,
       let kept := sinkLoop sinks in
       let next := sinkLoop (sinks ++ [ {| egcfgv1a1.OpenTelemetry := Some t |} ]) in
       let same_host_and_port :=
         Exists (λ m, metricSink.Address m = egcfgv1a1.Host t
                      ∧ metricSink.Port m = egcfgv1a1.Port t) kept in
       (next = kept ↔ same_host_and_port)
       ∧ (next = kept ++ [to_metricSink t] ↔ ¬ same_host_and_port))
  ∧ (∀ sinks,
       sinkLoop sinks
       = first_occurrences id (to_metricSink <$> omap egcfgv1a1.OpenTelemetry sinks)).
Proof.
  split; [intros; apply Sprintf_s_colon_d_inj|]. split.
  - intros sinks t. cbn zeta. rewrite sinkLoop_snoc.
    assert (Exists (λ m, metricSink.Address m = egcfgv1a1.Host t
                         ∧ metricSink.Port m = egcfgv1a1.Port t) (sinkLoop sinks)
            ↔ to_metricSink t ∈ sinkLoop sinks) as ->.
    { rewrite Exists_exists. split.
      - intros ([h p] & Hm & Hh & Hp). cbn in Hh, Hp. by subst.
      - intros Hm. by exists (to_metricSink t). }
    pose proof (app_singleton_neq (sinkLoop sinks) (to_metricSink t)).
    case_bool_decide; split; split; try done; congruence.
  - intros sinks. rewrite sinkLoop_first_occurrences.
    apply first_occurrences_fmap, sink_key_inj.
Qed.

End properties.

(** ** The properties on examples *)

(** The witness of C7: two configurations with the parameters of the example
    policy, the second of which holds a text rendered before. *)
Lemma render_deterministic_witness :
  let b1 := {| bootstrapConfig.parameters := buildParameters (Some example_policy);
               bootstrapConfig.rendered := "" |} in
  let b2 := {| bootstrapConfig.parameters := buildParameters (Some example_policy);
               bootstrapConfig.rendered := "stale" |} in
  bootstrapConfig.parameters b1 = bootstrapConfig.parameters b2
  ∧ render js_id b2 = render js_id b1.
Proof.
  cbn zeta. split; [reflexivity|].
  apply (render_deterministic js_id
           {| bootstrapConfig.parameters := buildParameters (Some example_policy);
              bootstrapConfig.rendered := "" |}
           {| bootstrapConfig.parameters := buildParameters (Some example_policy);
              bootstrapConfig.rendered := "stale" |}).
  reflexivity.
Defined.

(** Two sinks for the host [m] and the port 4317 make one cluster, at
    position 0. *)
Example two_sinks_one_address :
  let sink := {| egcfgv1a1.OpenTelemetry :=
                   Some {| egcfgv1a1.Host := "m"; egcfgv1a1.Port := 4317 |} |} in
  let pm := {| egcfgv1a1.Prometheus := None;
               egcfgv1a1.Sinks := [sink; sink];
               egcfgv1a1.StatsMatcher := None |} in
  bootstrapParameters.OtelMetricSinks (buildParameters (Some pm))
  = [ {| metricSink.Address := "m"; metricSink.Port := 4317 |} ]
  ∧ starting_with "  - name: otel_metric_sink_"
      (document_lines js_id (buildParameters (Some pm)))
    = ["  - name: otel_metric_sink_0"].
Proof. split; vm_compute; reflexivity. Qed.

(** The example policy: the sinks that are kept, the entries of the rendered
    document, and its prefix patterns. *)
Example example_policy_rendered :
  let p := buildParameters (Some example_policy) in
  bootstrapParameters.OtelMetricSinks p
  = [ {| metricSink.Address := "m"; metricSink.Port := 4317 |};
      {| metricSink.Address := "n"; metricSink.Port := 4318 |} ]
  ∧ GetRenderedBootstrapConfig js_id (Some example_policy)
    = (document js_id p, None)
  ∧ starting_with "  - name: " (document_lines js_id p)
    = [ "  - name: envoy.access_loggers.file";
        "  - name: envoy-gateway-proxy-ready-0.0.0.0-19001";
        "  - name: prometheus_stats";
        "  - name: otel_metric_sink_0";
        "  - name: otel_metric_sink_1";
        "  - name: runtime-0" ]
  ∧ starting_with "      - prefix: " (document_lines js_id p)
    = prefix_pattern
      <$> ["custom_"; "cluster_manager"; "listener_manager"; "server"; "cluster.xds-grpc"]
  ∧ starting_with "                address: " (document_lines js_id p)
    = [ "                address: 127.0.0.1";
        "                address: m";
        "                address: n";
        "                address: envoy-gateway" ].
Proof. cbn zeta. repeat split; vm_compute; reflexivity. Qed.

(** A template that fails has written a part of its text when it fails; the
    caller gets none of it. *)
Example broken_template_renders_nothing :
  template.Execute js_id brokenTmpl (reflect.parameters (buildParameters None))
  = ("admin: 127.0.0.1 ",
     Some (template.CantEvaluateField "Missing" "bootstrap.bootstrapParameters"))
  ∧ (GetRenderedBootstrapConfigWith js_id brokenTmpl None).1 = "".
Proof. split; vm_compute; reflexivity. Qed.

(** * Further properties *)

(** ** The loop over the sinks *)

Lemma first_occurrences_app {A K : Type} `{EqDecision K} (key : A → K) (l1 l2 : list A) :
  first_occurrences key (l1 ++ l2)
  = first_occurrences key l1
    ++ filter (λ y, key y ∉ key <$> l1) (first_occurrences key l2).
Proof.
  induction l1 as [|x l1 IH].
  - cbn. symmetry. apply filter_all. intros y _. apply not_elem_of_nil.
  - rewrite <- app_comm_cons. cbn [first_occurrences app].
    rewrite IH, filter_app, list_filter_filter. do 2 f_equal.
    apply list_filter_iff. intros y. rewrite fmap_cons, not_elem_of_cons. tauto.
Qed.

Lemma first_occurrences_id_elem {A : Type} `{EqDecision A} (l : list A) (x : A) :
  x ∈ first_occurrences id l ↔ x ∈ l.
Proof.
  induction l as [|y l IH]; [done|]. cbn [first_occurrences].
  rewrite !elem_of_cons, list_elem_of_filter, IH. unfold id.
  destruct (decide (x = y)); tauto.
Qed.

Lemma first_occurrences_id_NoDup {A : Type} `{EqDecision A} (l : list A) :
  NoDup (first_occurrences id l).
Proof.
  induction l as [|y l IH]; [constructor|]. cbn [first_occurrences].
  apply NoDup_cons. split.
  - intros [Hy _]%list_elem_of_filter. by apply Hy.
  - by apply NoDup_filter.
Qed.

Lemma first_occurrences_id_all {A : Type} `{EqDecision A} (l : list A) :
  NoDup l → first_occurrences id l = l.
Proof.
  induction 1 as [|x l Hx _ IH]; [done|]. cbn [first_occurrences]. rewrite IH. f_equal.
  apply filter_all. intros y Hy. unfold id. by intros ->.
Qed.

Lemma sinkLoop_all_metricSinks (sinks : list egcfgv1a1.MetricSink) :
  sinkLoop sinks = first_occurrences id (all_metricSinks sinks).
Proof.
  rewrite sinkLoop_first_occurrences. apply first_occurrences_fmap, sink_key_inj.
Qed.

(** X1: when the loop over the sinks is over, the set [addresses] holds the
    keys of the sinks of [metricSinks] and no other, the sinks of
    [metricSinks] have keys that differ from one another, and the set has as
    many keys as [metricSinks] has sinks. *)
Theorem addresses_are_the_keys_of_the_sinks (sinks : list egcfgv1a1.MetricSink) :
  let st := foldl sinkLoopBody (sets.NewString, []) sinks in
  st.1 = list_to_set (metricSink_key <$> st.2)
  ∧ NoDup (metricSink_key <$> st.2)
  ∧ size st.1 = length st.2.
Proof.
  cbn zeta.
  assert ((foldl sinkLoopBody (sets.NewString, []) sinks).1
          = list_to_set
              (metricSink_key <$> (foldl sinkLoopBody (sets.NewString, []) sinks).2))
    as Hset.
  { apply set_eq. intros k. rewrite elem_of_list_to_set, list_elem_of_fmap.
    rewrite (sinkLoop_addresses sinks k). cbn zeta. unfold metricSink_key.
    split; intros (m & ? & ?); eauto. }
  assert (NoDup (metricSink_key <$> (foldl sinkLoopBody (sets.NewString, []) sinks).2))
    as Hnodup.
  { fold (sinkLoop sinks). rewrite sinkLoop_first_occurrences, <- list_fmap_compose.
    apply (first_occurrences_NoDup sink_key). }
  split; [exact Hset|]. split; [exact Hnodup|].
  by rewrite Hset, size_list_to_set, length_fmap.
Qed.

Lemma filter_nothing {A} (P : A → Prop) `{∀ x, Decision (P x)} (l : list A) :
  (∀ x, x ∈ l → ¬ P x) → filter P l = [].
Proof.
  induction l as [|a l IH]; intros Hl; [done|].
  rewrite filter_cons_False by (apply Hl; left). apply IH. intros x Hx. apply Hl. by right.
Qed.

(** X2: the sinks kept for a sequence of sinks followed by another are the
    sinks kept for the first, and then those kept for the second that the
    first has not: sinks added at the end of a policy leave the earlier
    clusters and their positions as they are, and a sequence repeated gives
    the sinks of the sequence. *)
Theorem sinks_of_a_longer_policy (l1 l2 : list egcfgv1a1.MetricSink) :
  sinkLoop (l1 ++ l2) = sinkLoop l1 ++ filter (λ m, m ∉ sinkLoop l1) (sinkLoop l2)
  ∧ sinkLoop l1 `prefix_of` sinkLoop (l1 ++ l2)
  ∧ sinkLoop (l1 ++ l1) = sinkLoop l1.
Proof.
  assert (sinkLoop (l1 ++ l2)
          = sinkLoop l1 ++ filter (λ m, m ∉ sinkLoop l1) (sinkLoop l2)) as Happ.
  { rewrite !sinkLoop_all_metricSinks. unfold all_metricSinks.
    rewrite omap_app, fmap_app, first_occurrences_app. f_equal.
    apply list_filter_iff. intros m. unfold id.
    by rewrite list_fmap_id, first_occurrences_id_elem. }
  assert (sinkLoop (l1 ++ l1) = sinkLoop l1) as Htwice.
  { rewrite !sinkLoop_all_metricSinks. unfold all_metricSinks.
    rewrite omap_app, fmap_app, first_occurrences_app, filter_nothing.
    - apply app_nil_r.
    - intros m Hm. unfold id. rewrite list_fmap_id. intros Hnot. apply Hnot.
      by rewrite first_occurrences_id_elem in Hm. }
  split; [exact Happ|]. split; [|exact Htwice]. rewrite Happ. by apply prefix_app_r.
Qed.

(** X3: a sink with a host and a port is kept exactly when a sink of the
    policy has an OpenTelemetry target with this host and this port: the loop
    makes up no sink, and loses no target. *)
Theorem kept_sinks_are_the_targets (sinks : list egcfgv1a1.MetricSink)
    (h : string) (p : Z) :
  {| metricSink.Address := h; metricSink.Port := p |} ∈ sinkLoop sinks
  ↔ {| egcfgv1a1.OpenTelemetry := Some {| egcfgv1a1.Host := h; egcfgv1a1.Port := p |} |}
    ∈ sinks.
Proof.
  rewrite sinkLoop_all_metricSinks, first_occurrences_id_elem. unfold all_metricSinks.
  rewrite list_elem_of_fmap. split.
  - intros ([h' p'] & [= -> ->] & ([[t|]] & Hs & [= ->])%list_elem_of_omap). exact Hs.
  - intros Hs. exists {| egcfgv1a1.Host := h; egcfgv1a1.Port := p |}. split; [done|].
    apply list_elem_of_omap. eauto.
Qed.

(** X4: when the targets of the policy differ from one another, the loop
    keeps them all, in the order of the policy. *)
Theorem distinct_sinks_are_all_kept (sinks : list egcfgv1a1.MetricSink) :
  NoDup (all_metricSinks sinks) → sinkLoop sinks = all_metricSinks sinks.
Proof. intros Hl. rewrite sinkLoop_all_metricSinks. by apply first_occurrences_id_all. Qed.

(** ** Reading the document *)

Section omap.
Context {A B : Type} (f : string → option B).

Lemma omap_fmap_none (g : A → string) (l : list A) :
  (∀ a, f (g a) = None) → omap f (g <$> l) = [].
Proof.
  intros Hg. induction l as [|a l IH]; [done|].
  rewrite fmap_cons. cbn [omap list_omap]. by rewrite Hg.
Qed.

Lemma omap_fmap_some (g : A → string) (h : A → B) (l : list A) :
  (∀ a, f (g a) = Some (h a)) → omap f (g <$> l) = h <$> l.
Proof.
  intros Hg. induction l as [|a l IH]; [done|].
  rewrite !fmap_cons. cbn [omap list_omap]. by rewrite Hg, <- IH.
Qed.

Lemma omap_concat_fmap (g : A → list string) (h : A → list B) (l : list A) :
  (∀ a, omap f (g a) = h a) → omap f (concat (g <$> l)) = concat (h <$> l).
Proof.
  intros Hg. induction l as [|a l IH]; [done|].
  rewrite !fmap_cons. cbn [concat]. by rewrite omap_app, Hg, IH.
Qed.

Lemma omap_concat_imap (g : nat → A → list string) (h : nat → A → list B)
    (l : list A) :
  (∀ i a, omap f (g i a) = h i a) → omap f (concat (imap g l)) = concat (imap h l).
Proof.
  revert g h. induction l as [|a l IH]; intros g h Hg; [done|].
  cbn [imap concat]. rewrite omap_app, Hg. f_equal. apply IH. intros i b. apply Hg.
Qed.
End omap.

Lemma concat_fmap_nil {A B} (l : list A) : concat ((λ _, @nil B) <$> l) = [].
Proof. by induction l. Qed.

Lemma concat_fmap_singleton {A B} (h : A → B) (l : list A) :
  concat ((λ a, [h a]) <$> l) = h <$> l.
Proof. induction l as [|a l IH]; [done|]. cbn. by f_equal. Qed.

Lemma imap_ignore_fmap {A B C} (h : nat → C) (g : A → B) (l : list A) :
  imap (λ i _, h i) (g <$> l) = imap (λ i _, h i) l.
Proof. by rewrite imap_fmap. Qed.

Lemma imap_ignore_index {A B} (h : A → B) (l : list A) : imap (λ _ a, h a) l = h <$> l.
Proof. apply (imap_const h). Qed.

Lemma omap_none {A B} (l : list A) : omap (λ _, @None B) l = [].
Proof. by induction l. Qed.

Lemma omap_some {A B} (h : A → B) (l : list A) : omap (λ a, Some (h a)) l = h <$> l.
Proof. induction l as [|a l IH]; [done|]. cbn. by rewrite IH. Qed.

Lemma imap_nil_const {A B} (l : list A) : concat (imap (λ _ _, @nil B) l) = [].
Proof. apply concat_imap_nil. Qed.

(** The fixed blocks of the document are computed. *)
Ltac compute_closed :=
  repeat match goal with
         | |- context [omap ?f ?blk] =>
             lazymatch blk with
             | admin_lines _ => idtac
             | dynamic_resources_lines => idtac
             | ready_listener_lines _ => idtac
             | ready_filters_lines _ => idtac
             | prometheus_route_lines => idtac
             | prometheus_cluster_lines _ => idtac
             | xds_cluster_lines _ => idtac
             | layered_runtime_lines => idtac
             | cons _ _ => idtac
             end;
             let r := eval vm_compute in (omap f blk) in
             replace (omap f blk) with r by (vm_compute; reflexivity)
         end.

(** With and without the Prometheus endpoint. *)
Ltac both_cases :=
  match goal with
  | |- context [bool_decide (prometheus_present ?pm)] =>
      destruct (bool_decide (prometheus_present pm))
  end;
  cbn [app]; rewrite ?app_nil_r.

Ltac by_computing := intros; vm_compute; reflexivity.

Lemma string_app_inv_head (s a b : string) : s +:+ a = s +:+ b → a = b.
Proof.
  induction s as [|c s IH]; [done|].
  change (String c (s +:+ a) = String c (s +:+ b) → a = b). intros [= H]. by apply IH.
Qed.

#[global] Instance sink_cluster_name_inj : Inj (=) (=) sink_cluster_name.
Proof.
  intros i j H. unfold sink_cluster_name in H.
  by apply string_app_inv_head, FormatInt_inj, Nat2Z.inj in H.
Qed.

Lemma sink_cluster_name_first (idx : nat) :
  ∃ rest, sink_cluster_name idx = String "o" rest.
Proof. eexists. unfold sink_cluster_name. reflexivity. Qed.

Lemma clusters_lines_blocks (pm : option egcfgv1a1.ProxyMetrics) :
  clusters_lines (buildParameters pm)
  = ["  clusters:"]
    ++ (if bool_decide (prometheus_present pm)
        then prometheus_cluster_lines fixed_AdminServer else [])
    ++ concat (imap (λ i t, otel_metric_sink_cluster_lines i (to_metricSink t))
                 (first_occurrences sink_key (otel_targets pm)))
    ++ xds_cluster_lines fixed_XdsServer.
Proof.
  rewrite buildParameters_eq. unfold clusters_lines.
  cbn [bootstrapParameters.AdminServer bootstrapParameters.OtelMetricSinks
       bootstrapParameters.EnablePrometheus bootstrapParameters.XdsServer].
  by rewrite imap_fmap.
Qed.

Lemma cluster_names_eq (pm : option egcfgv1a1.ProxyMetrics) :
  cluster_names (buildParameters pm)
  = (if bool_decide (prometheus_present pm) then ["prometheus_stats"] else [])
    ++ imap (λ i _, sink_cluster_name i) (first_occurrences sink_key (otel_targets pm))
    ++ ["xds_cluster"].
Proof.
  unfold cluster_names. rewrite clusters_lines_blocks, !omap_app.
  rewrite (omap_concat_imap _ _ (λ i _, [sink_cluster_name i])) by by_computing.
  rewrite concat_imap_singleton.
  replace (omap cluster_name_of (xds_cluster_lines fixed_XdsServer)) with ["xds_cluster"]
    by (vm_compute; reflexivity).
  by destruct (bool_decide (prometheus_present pm)).
Qed.

Lemma cluster_names_NoDup (pm : option egcfgv1a1.ProxyMetrics) :
  NoDup (cluster_names (buildParameters pm)).
Proof.
  rewrite cluster_names_eq, imap_seq_0.
  assert (∀ x, x ∈ sink_cluster_name <$> seq 0 (length (first_occurrences sink_key
                                                         (otel_targets pm))) →
               x ≠ "prometheus_stats" ∧ x ≠ "xds_cluster") as Hsink.
  { intros x (i & -> & _)%list_elem_of_fmap.
    destruct (sink_cluster_name_first i) as [rest ->]. by split. }
  assert (NoDup ((sink_cluster_name <$> seq 0 (length (first_occurrences sink_key
                                                        (otel_targets pm))))
                 ++ ["xds_cluster"])) as Hrest.
  { apply NoDup_app. split; [|split].
    - apply (NoDup_fmap_2 _), NoDup_seq.
    - intros x [_ Hx]%Hsink ->%list_elem_of_singleton. done.
    - apply NoDup_singleton. }
  destruct (bool_decide (prometheus_present pm)); [|exact Hrest].
  apply NoDup_app. split; [apply NoDup_singleton|]. split; [|exact Hrest].
  intros x ->%list_elem_of_singleton [[Hx _]%Hsink|Hx%list_elem_of_singleton]%elem_of_app;
    done.
Qed.

Section further.
Variable JSEscapeString : string → string.

(** The lines of the document, block after block. *)
Lemma document_lines_blocks (pm : option egcfgv1a1.ProxyMetrics) :
  let kept := first_occurrences sink_key (otel_targets pm) in
  let enabled := bool_decide (prometheus_present pm) in
  document_lines JSEscapeString (buildParameters pm)
  = admin_lines fixed_AdminServer
    ++ ["stats_config:"; "  stats_matcher:"; "    inclusion_list:"; "      patterns:"]
    ++ (prefix_pattern <$> (caller_prefixes pm ++ baseline_prefixes))
    ++ (suffix_pattern <$> caller_suffixes pm)
    ++ concat (regex_pattern_lines JSEscapeString <$> caller_regexps pm)
    ++ dynamic_resources_lines
    ++ (if bool_decide (kept = []) then []
        else "stats_sinks:" :: concat (imap (λ idx _, stats_sink_lines idx) kept))
    ++ ready_listener_lines fixed_ReadyServer
    ++ (if enabled then prometheus_route_lines else [])
    ++ ready_filters_lines fixed_ReadyServer
    ++ ["  clusters:"]
    ++ (if enabled then prometheus_cluster_lines fixed_AdminServer else [])
    ++ concat (imap (λ i t, otel_metric_sink_cluster_lines i (to_metricSink t)) kept)
    ++ xds_cluster_lines fixed_XdsServer
    ++ layered_runtime_lines.
Proof.
  cbn zeta. rewrite buildParameters_eq.
  unfold document_lines, listener_lines, clusters_lines, stats_config_lines.
  cbn [bootstrapParameters.AdminServer bootstrapParameters.ReadyServer
       bootstrapParameters.OtelMetricSinks bootstrapParameters.ProxyStatsMatcher
       bootstrapParameters.EnablePrometheus bootstrapParameters.XdsServer
       ProxyStatsMatcherParameters.InclusionPrefixs
       ProxyStatsMatcherParameters.InclusionSuffixs
       ProxyStatsMatcherParameters.InclusionRegexps].
  assert (stats_sinks_lines (to_metricSink <$> first_occurrences sink_key (otel_targets pm))
          = if bool_decide (first_occurrences sink_key (otel_targets pm) = []) then []
            else "stats_sinks:"
                 :: concat (imap (λ idx _, stats_sink_lines idx)
                              (first_occurrences sink_key (otel_targets pm)))) as ->.
  { destruct (first_occurrences sink_key (otel_targets pm)) as [|t kept]; [done|].
    rewrite bool_decide_false by done. unfold stats_sinks_lines.
    rewrite fmap_cons, <- fmap_cons, imap_fmap. done. }
  rewrite imap_fmap. change ("  clusters:" :: ?l) with (["  clusters:"] ++ l).
  rewrite <- !app_assoc. reflexivity.
Qed.


(** Reading the lines of the document with [f], block after block: the
    blocks that hold nothing of the policy are left to be computed, what is
    read in the blocks of the policy is given. *)
Lemma omap_document {B : Type} (f : string → option B)
    (pm : option egcfgv1a1.ProxyMetrics)
    (in_prefix in_suffix : string → option B) (in_regex : string → list B)
    (in_stats_key : list B)
    (in_stats_sink in_cluster : nat → egcfgv1a1.OpenTelemetrySink → list B) :
  (∀ s, f (prefix_pattern s) = in_prefix s) →
  (∀ s, f (suffix_pattern s) = in_suffix s) →
  (∀ s, omap f (regex_pattern_lines JSEscapeString s) = in_regex s) →
  omap f ["stats_sinks:"] = in_stats_key →
  (∀ i t, omap f (stats_sink_lines i) = in_stats_sink i t) →
  (∀ i t, omap f (otel_metric_sink_cluster_lines i (to_metricSink t)) = in_cluster i t) →
  let kept := first_occurrences sink_key (otel_targets pm) in
  let enabled := bool_decide (prometheus_present pm) in
  omap f (document_lines JSEscapeString (buildParameters pm))
  = omap f (admin_lines fixed_AdminServer)
    ++ omap f ["stats_config:"; "  stats_matcher:"; "    inclusion_list:"; "      patterns:"]
    ++ omap in_prefix (caller_prefixes pm ++ baseline_prefixes)
    ++ omap in_suffix (caller_suffixes pm)
    ++ concat (in_regex <$> caller_regexps pm)
    ++ omap f dynamic_resources_lines
    ++ (if bool_decide (kept = []) then []
        else in_stats_key ++ concat (imap in_stats_sink kept))
    ++ omap f (ready_listener_lines fixed_ReadyServer)
    ++ (if enabled then omap f prometheus_route_lines else [])
    ++ omap f (ready_filters_lines fixed_ReadyServer)
    ++ omap f ["  clusters:"]
    ++ (if enabled then omap f (prometheus_cluster_lines fixed_AdminServer) else [])
    ++ concat (imap in_cluster kept)
    ++ omap f (xds_cluster_lines fixed_XdsServer)
    ++ omap f layered_runtime_lines.
Proof.
  intros Hpre Hsuf Hreg Hkey Hsink Hcluster. cbn zeta.
  rewrite document_lines_blocks. cbn zeta. rewrite !omap_app.
  rewrite (omap_concat_fmap _ _ in_regex) by done.
  rewrite (omap_concat_imap _ _ in_cluster) by done.
  assert (∀ l, omap f (prefix_pattern <$> l) = omap in_prefix l) as ->.
  { intros l. induction l as [|s l IH]; [done|]. rewrite fmap_cons. cbn [omap list_omap].
    by rewrite Hpre, IH. }
  assert (∀ l, omap f (suffix_pattern <$> l) = omap in_suffix l) as ->.
  { intros l. induction l as [|s l IH]; [done|]. rewrite fmap_cons. cbn [omap list_omap].
    by rewrite Hsuf, IH. }
  assert (omap f
            (if bool_decide (first_occurrences sink_key (otel_targets pm) = []) then []
             else "stats_sinks:"
                  :: concat (imap (λ idx _, stats_sink_lines idx)
                               (first_occurrences sink_key (otel_targets pm))))
          = if bool_decide (first_occurrences sink_key (otel_targets pm) = []) then []
            else in_stats_key
                 ++ concat (imap in_stats_sink
                              (first_occurrences sink_key (otel_targets pm)))) as ->.
  { case_bool_decide; [done|].
    change ("stats_sinks:" :: ?l) with (["stats_sinks:"] ++ l).
    by rewrite omap_app, Hkey, (omap_concat_imap _ _ in_stats_sink). }
  rewrite !omap_app. by destruct (bool_decide (prometheus_present pm)).
Qed.


Lemma cluster_references (pm : option egcfgv1a1.ProxyMetrics) :
  after "        cluster_name: " (document_lines JSEscapeString (buildParameters pm))
  = "xds_cluster"
    :: imap (λ i _, sink_cluster_name i) (first_occurrences sink_key (otel_targets pm)).
Proof.
  unfold after.
  rewrite (omap_document _ pm (λ _, None) (λ _, None) (λ _, []) []
             (λ i _, [sink_cluster_name i]) (λ _ _, [])) by by_computing.
  cbn zeta. compute_closed. rewrite !omap_none, concat_fmap_nil, concat_imap_nil.
  case_bool_decide as Hk; [rewrite Hk|rewrite concat_imap_singleton]; by both_cases.
Qed.


Lemma suffix_patterns_read (pm : option egcfgv1a1.ProxyMetrics) :
  after "      - suffix: " (document_lines JSEscapeString (buildParameters pm))
  = strings.q <$> caller_suffixes pm.
Proof.
  unfold after.
  rewrite (omap_document _ pm (λ _, None) (λ s, Some (strings.q s)) (λ _, []) []
             (λ _ _, []) (λ _ _, [])) by by_computing.
  cbn zeta. compute_closed. rewrite omap_none, omap_some, concat_fmap_nil, !concat_imap_nil.
  case_bool_decide; by both_cases.
Qed.

Lemma regex_patterns_read (pm : option egcfgv1a1.ProxyMetrics) :
  let ls := document_lines JSEscapeString (buildParameters pm) in
  after "      - safe_regex:" ls = (λ _, "") <$> caller_regexps pm
  ∧ after "          google_re2: " ls = (λ _, "{}") <$> caller_regexps pm
  ∧ after "          regex: " ls = (λ s, strings.q (JSEscapeString s)) <$> caller_regexps pm.
Proof.
  cbn zeta. unfold after. split; [|split].
  - rewrite (omap_document _ pm (λ _, None) (λ _, None) (λ _, [""]) []
               (λ _ _, []) (λ _ _, [])) by by_computing.
    cbn zeta. compute_closed.
    rewrite !omap_none, concat_fmap_singleton, !concat_imap_nil.
    case_bool_decide; by both_cases.
  - rewrite (omap_document _ pm (λ _, None) (λ _, None) (λ _, ["{}"]) []
               (λ _ _, []) (λ _ _, [])) by by_computing.
    cbn zeta. compute_closed.
    rewrite !omap_none, concat_fmap_singleton, !concat_imap_nil.
    case_bool_decide; by both_cases.
  - rewrite (omap_document _ pm (λ _, None) (λ _, None)
               (λ s, [strings.q (JSEscapeString s)]) []
               (λ _ _, []) (λ _ _, [])) by by_computing.
    cbn zeta. compute_closed.
    rewrite !omap_none, concat_fmap_singleton, !concat_imap_nil.
    case_bool_decide; by both_cases.
Qed.

Lemma endpoint_addresses (pm : option egcfgv1a1.ProxyMetrics) :
  after "                address: " (document_lines JSEscapeString (buildParameters pm))
  = (if bool_decide (prometheus_present pm) then ["127.0.0.1"] else [])
    ++ (egcfgv1a1.Host <$> first_occurrences sink_key (otel_targets pm))
    ++ ["envoy-gateway"].
Proof.
  unfold after.
  rewrite (omap_document _ pm (λ _, None) (λ _, None) (λ _, []) []
             (λ _ _, []) (λ _ t, [egcfgv1a1.Host t])) by by_computing.
  cbn zeta. compute_closed.
  rewrite !omap_none, concat_fmap_nil, concat_imap_nil, concat_imap_singleton, imap_ignore_index.
  case_bool_decide; by both_cases.
Qed.

Lemma endpoint_ports (pm : option egcfgv1a1.ProxyMetrics) :
  after "                port_value: " (document_lines JSEscapeString (buildParameters pm))
  = (if bool_decide (prometheus_present pm) then ["19000"] else [])
    ++ ((λ t, fmt.FormatInt (egcfgv1a1.Port t))
          <$> first_occurrences sink_key (otel_targets pm))
    ++ ["18000"].
Proof.
  unfold after.
  rewrite (omap_document _ pm (λ _, None) (λ _, None) (λ _, []) []
             (λ _ _, []) (λ _ t, [fmt.FormatInt (egcfgv1a1.Port t)])) by by_computing.
  cbn zeta. compute_closed.
  rewrite !omap_none, concat_fmap_nil, concat_imap_nil, concat_imap_singleton, imap_ignore_index.
  case_bool_decide; by both_cases.
Qed.

Lemma load_assignment_names (pm : option egcfgv1a1.ProxyMetrics) :
  after "      cluster_name: " (document_lines JSEscapeString (buildParameters pm))
  = (if bool_decide (prometheus_present pm) then ["prometheus_stats"] else [])
    ++ imap (λ i _, sink_cluster_name i) (first_occurrences sink_key (otel_targets pm))
    ++ ["xds_cluster"].
Proof.
  unfold after.
  rewrite (omap_document _ pm (λ _, None) (λ _, None) (λ _, []) []
             (λ _ _, []) (λ i _, [sink_cluster_name i])) by by_computing.
  cbn zeta. compute_closed.
  rewrite !omap_none, concat_fmap_nil, concat_imap_nil, concat_imap_singleton.
  case_bool_decide; by both_cases.
Qed.

Lemma section_keys (pm : option egcfgv1a1.ProxyMetrics) :
  keep is_section_key (document_lines JSEscapeString (buildParameters pm))
  = ["admin:"; "stats_config:"; "dynamic_resources:"]
    ++ (if bool_decide (first_occurrences sink_key (otel_targets pm) = []) then []
        else ["stats_sinks:"])
    ++ ["static_resources:"; "layered_runtime:"].
Proof.
  unfold keep.
  rewrite (omap_document _ pm (λ _, None) (λ _, None) (λ _, []) ["stats_sinks:"]
             (λ _ _, []) (λ _ _, [])) by by_computing.
  cbn zeta. compute_closed.
  rewrite !omap_none, concat_fmap_nil, !concat_imap_nil.
  case_bool_decide; by both_cases.
Qed.

Lemma first_column_lines (pm : option egcfgv1a1.ProxyMetrics) :
  keep in_first_column (document_lines JSEscapeString (buildParameters pm))
  = ["admin:"; "stats_config:"; "dynamic_resources:"]
    ++ (if bool_decide (first_occurrences sink_key (otel_targets pm) = []) then []
        else "stats_sinks:"
             :: ((λ _, "- name: " +:+ strings.q "envoy.stat_sinks.open_telemetry")
                   <$> first_occurrences sink_key (otel_targets pm)))
    ++ ["static_resources:"; "layered_runtime:"].
Proof.
  unfold keep.
  rewrite (omap_document _ pm (λ _, None) (λ _, None) (λ _, []) ["stats_sinks:"]
             (λ _ _, ["- name: " +:+ strings.q "envoy.stat_sinks.open_telemetry"])
             (λ _ _, [])) by by_computing.
  cbn zeta. compute_closed.
  rewrite !omap_none, concat_fmap_nil, concat_imap_nil, concat_imap_singleton.
  rewrite (imap_ignore_index
             (λ _, "- name: " +:+ strings.q "envoy.stat_sinks.open_telemetry")).
  case_bool_decide; by both_cases.
Qed.

Lemma no_blank_line (pm : option egcfgv1a1.ProxyMetrics) :
  keep is_blank (document_lines JSEscapeString (buildParameters pm)) = [].
Proof.
  unfold keep.
  rewrite (omap_document _ pm (λ _, None) (λ _, None) (λ _, []) []
             (λ _ _, []) (λ _ _, [])) by by_computing.
  cbn zeta. compute_closed.
  rewrite !omap_none, concat_fmap_nil, !concat_imap_nil.
  case_bool_decide; by both_cases.
Qed.


Lemma route_clusters (pm : option egcfgv1a1.ProxyMetrics) :
  after "                  cluster: " (document_lines JSEscapeString (buildParameters pm))
  = if bool_decide (prometheus_present pm) then ["prometheus_stats"] else [].
Proof.
  unfold after.
  rewrite (omap_document _ pm (λ _, None) (λ _, None) (λ _, []) []
             (λ _ _, []) (λ _ _, [])) by by_computing.
  cbn zeta. compute_closed. rewrite !omap_none, concat_fmap_nil, !concat_imap_nil.
  case_bool_decide; by both_cases.
Qed.

Lemma absent_policy_lines (pm : option egcfgv1a1.ProxyMetrics) :
  document_lines JSEscapeString (buildParameters None)
  `sublist_of` document_lines JSEscapeString (buildParameters pm).
Proof.
  rewrite (document_lines_blocks pm). cbn zeta.
  assert (document_lines JSEscapeString (buildParameters None)
          = admin_lines fixed_AdminServer
            ++ ["stats_config:"; "  stats_matcher:"; "    inclusion_list:";
                "      patterns:"]
            ++ (prefix_pattern <$> baseline_prefixes)
            ++ dynamic_resources_lines
            ++ ready_listener_lines fixed_ReadyServer
            ++ ready_filters_lines fixed_ReadyServer
            ++ ["  clusters:"]
            ++ xds_cluster_lines fixed_XdsServer
            ++ layered_runtime_lines) as ->.
  { rewrite (document_lines_blocks None). vm_compute. reflexivity. }
  rewrite fmap_app, <- !app_assoc.
  apply sublist_app; [done|]. apply sublist_app; [done|].
  apply sublist_inserts_l. apply sublist_app; [done|].
  do 2 apply sublist_inserts_l. apply sublist_app; [done|].
  apply sublist_inserts_l. apply sublist_app; [done|].
  apply sublist_inserts_l. apply sublist_app; [done|]. apply sublist_app; [done|].
  by do 2 apply sublist_inserts_l.
Qed.

(** X5: the clusters of the rendered document have names that differ from
    one another, whatever the policy: [prometheus_stats] when the policy has
    its Prometheus sub-object, [otel_metric_sink_0], [otel_metric_sink_1],
    ... for the sinks that are kept, and [xds_cluster]; the load assignment
    of each cluster has the name of the cluster. *)
Theorem cluster_names_are_distinct (pm : option egcfgv1a1.ProxyMetrics) :
  let p := buildParameters pm in
  GetRenderedBootstrapConfig JSEscapeString pm = (document JSEscapeString p, None)
  ∧ cluster_names p
    = (if bool_decide (prometheus_present pm) then ["prometheus_stats"] else [])
      ++ imap (λ i _, sink_cluster_name i) (first_occurrences sink_key (otel_targets pm))
      ++ ["xds_cluster"]
  ∧ NoDup (cluster_names p)
  ∧ after "      cluster_name: " (document_lines JSEscapeString p) = cluster_names p.
Proof.
  cbn zeta. split; [apply GetRenderedBootstrapConfig_document|].
  split; [apply cluster_names_eq|]. split; [apply cluster_names_NoDup|].
  by rewrite load_assignment_names, cluster_names_eq.
Qed.

(** X6: every cluster the rendered document refers to is one of its
    clusters: the [cluster_name] of the gRPC service of [ads_config] and of
    each entry of [stats_sinks], and the [cluster] of the route of the
    readiness listener; the entry of [stats_sinks] at position [i] refers to
    the cluster of the sink at position [i]. *)
Theorem cluster_references_resolve (pm : option egcfgv1a1.ProxyMetrics) :
  let p := buildParameters pm in
  let ls := document_lines JSEscapeString p in
  GetRenderedBootstrapConfig JSEscapeString pm = (document JSEscapeString p, None)
  ∧ after "        cluster_name: " ls
    = "xds_cluster"
      :: imap (λ i _, sink_cluster_name i) (first_occurrences sink_key (otel_targets pm))
  ∧ (∀ n, n ∈ after "        cluster_name: " ls → n ∈ cluster_names p)
  ∧ (∀ n, n ∈ after "                  cluster: " ls → n ∈ cluster_names p).
Proof.
  cbn zeta. split; [apply GetRenderedBootstrapConfig_document|].
  split; [apply cluster_references|].
  rewrite cluster_references, route_clusters, cluster_names_eq. split; intros n Hn.
  - rewrite !elem_of_app. apply elem_of_cons in Hn as [->|Hn]; [|by auto].
    right. right. by apply list_elem_of_singleton.
  - destruct (bool_decide (prometheus_present pm)); [|by apply elem_of_nil in Hn].
    by apply elem_of_app; left.
Qed.

(** X7: the endpoints of the clusters of the rendered document, in its
    order: the admin interface when the policy has its Prometheus sub-object,
    then the host and the port of each sink that is kept, in the order of the
    policy, and last the xDS server. *)
Theorem endpoints_in_order (pm : option egcfgv1a1.ProxyMetrics) :
  let p := buildParameters pm in
  let ls := document_lines JSEscapeString p in
  let kept := first_occurrences sink_key (otel_targets pm) in
  let enabled := bool_decide (prometheus_present pm) in
  GetRenderedBootstrapConfig JSEscapeString pm = (document JSEscapeString p, None)
  ∧ after "                address: " ls
    = (if enabled then ["127.0.0.1"] else []) ++ (egcfgv1a1.Host <$> kept)
      ++ ["envoy-gateway"]
  ∧ after "                port_value: " ls
    = (if enabled then ["19000"] else [])
      ++ ((λ t, fmt.FormatInt (egcfgv1a1.Port t)) <$> kept) ++ ["18000"].
Proof.
  cbn zeta. split; [apply GetRenderedBootstrapConfig_document|].
  split; [apply endpoint_addresses|apply endpoint_ports].
Qed.

(** X8: the suffix patterns of the rendered document are the suffixes of the
    policy, in their order and in quotes, and its regex patterns are the
    regular expressions of the policy in their order, each one with the RE2
    engine and escaped by [js]; the baseline adds none, and without a stats
    matcher there is none. *)
Theorem suffix_and_regex_patterns (pm : option egcfgv1a1.ProxyMetrics) :
  let p := buildParameters pm in
  let ls := document_lines JSEscapeString p in
  GetRenderedBootstrapConfig JSEscapeString pm = (document JSEscapeString p, None)
  ∧ after "      - suffix: " ls = strings.q <$> caller_suffixes pm
  ∧ after "      - safe_regex:" ls = (λ _, "") <$> caller_regexps pm
  ∧ after "          google_re2: " ls = (λ _, "{}") <$> caller_regexps pm
  ∧ after "          regex: " ls
    = (λ s, strings.q (JSEscapeString s)) <$> caller_regexps pm
  ∧ (policy_matcher pm = None →
     after "      - suffix: " ls = [] ∧ after "      - safe_regex:" ls = []).
Proof.
  cbn zeta. split; [apply GetRenderedBootstrapConfig_document|].
  split; [apply suffix_patterns_read|].
  destruct (regex_patterns_read pm) as (Hsafe & Hre2 & Hregex).
  split; [exact Hsafe|]. split; [exact Hre2|]. split; [exact Hregex|].
  intros Hnone. rewrite suffix_patterns_read, Hsafe.
  unfold caller_suffixes, caller_regexps. by rewrite Hnone.
Qed.

(** X9: the lines of the rendered document that start in the first column,
    in its order: the keys [admin], [stats_config] and [dynamic_resources],
    then, when a sink is kept, the key [stats_sinks] and the line [- name:]
    of the entry of each sink that is kept, then the keys [static_resources]
    and [layered_runtime].  The keys among them are the sections of the
    document; each opens once. *)
Theorem sections_of_the_document (pm : option egcfgv1a1.ProxyMetrics) :
  let p := buildParameters pm in
  let kept := first_occurrences sink_key (otel_targets pm) in
  GetRenderedBootstrapConfig JSEscapeString pm = (document JSEscapeString p, None)
  ∧ keep in_first_column (document_lines JSEscapeString p)
    = ["admin:"; "stats_config:"; "dynamic_resources:"]
      ++ (if bool_decide (kept = []) then []
          else "stats_sinks:"
               :: ((λ _, "- name: " +:+ strings.q "envoy.stat_sinks.open_telemetry")
                     <$> kept))
      ++ ["static_resources:"; "layered_runtime:"]
  ∧ keep is_section_key (document_lines JSEscapeString p)
    = ["admin:"; "stats_config:"; "dynamic_resources:"]
      ++ (if bool_decide (kept = []) then [] else ["stats_sinks:"])
      ++ ["static_resources:"; "layered_runtime:"]
  ∧ NoDup (keep is_section_key (document_lines JSEscapeString p)).
Proof.
  cbn zeta. split; [apply GetRenderedBootstrapConfig_document|].
  split; [apply first_column_lines|].
  split; [apply section_keys|]. rewrite section_keys.
  case_bool_decide; cbn [app]; apply (bool_decide_unpack _); vm_compute; reflexivity.
Qed.

(** X10: the lines of the document of an absent policy stand, in their
    order, in the document of every policy: a policy adds lines to the
    document and takes none away. *)
Theorem policy_only_adds_lines (pm : option egcfgv1a1.ProxyMetrics) :
  GetRenderedBootstrapConfig JSEscapeString None
  = (document JSEscapeString (buildParameters None), None)
  ∧ GetRenderedBootstrapConfig JSEscapeString pm
    = (document JSEscapeString (buildParameters pm), None)
  ∧ document_lines JSEscapeString (buildParameters None)
    `sublist_of` document_lines JSEscapeString (buildParameters pm)
  ∧ length (document_lines JSEscapeString (buildParameters None))
    ≤ length (document_lines JSEscapeString (buildParameters pm)).
Proof.
  split; [apply GetRenderedBootstrapConfig_document|].
  split; [apply GetRenderedBootstrapConfig_document|].
  split; [apply absent_policy_lines|]. apply sublist_length, absent_policy_lines.
Qed.

(** X11: the actions of the template leave no empty line and no line of
    white space in the rendered document, whatever the policy. *)
Theorem no_blank_line_in_the_document (pm : option egcfgv1a1.ProxyMetrics) :
  let p := buildParameters pm in
  GetRenderedBootstrapConfig JSEscapeString pm = (document JSEscapeString p, None)
  ∧ keep is_blank (document_lines JSEscapeString p) = [].
Proof.
  cbn zeta. split; [apply GetRenderedBootstrapConfig_document|apply no_blank_line].
Qed.

End further.

(** The witness of X4: two targets that differ in their port. *)
Lemma distinct_sinks_are_all_kept_witness :
  let sinks :=
    [ {| egcfgv1a1.OpenTelemetry :=
           Some {| egcfgv1a1.Host := "m"; egcfgv1a1.Port := 4317 |} |};
      {| egcfgv1a1.OpenTelemetry := None |};
      {| egcfgv1a1.OpenTelemetry :=
           Some {| egcfgv1a1.Host := "m"; egcfgv1a1.Port := 4318 |} |} ] in
  NoDup (all_metricSinks sinks)
  ∧ sinkLoop sinks
    = [ {| metricSink.Address := "m"; metricSink.Port := 4317 |};
        {| metricSink.Address := "m"; metricSink.Port := 4318 |} ].
Proof.
  cbn zeta.
  assert (NoDup (all_metricSinks
                   [ {| egcfgv1a1.OpenTelemetry :=
                          Some {| egcfgv1a1.Host := "m"; egcfgv1a1.Port := 4317 |} |};
                     {| egcfgv1a1.OpenTelemetry := None |};
                     {| egcfgv1a1.OpenTelemetry :=
                          Some {| egcfgv1a1.Host := "m"; egcfgv1a1.Port := 4318 |} |} ]))
    as Hdistinct.
  { apply (bool_decide_unpack _). vm_compute. reflexivity. }
  split; [exact Hdistinct|].
  exact (distinct_sinks_are_all_kept _ Hdistinct).
Defined.

(** ** The lines of the rendered text *)

Lemma has_line_feed_app (a b : string) :
  has_line_feed (a +:+ b) = has_line_feed a || has_line_feed b.
Proof.
  induction a as [|c a IH]; [done|].
  change (String c a +:+ b) with (String c (a +:+ b)). cbn [has_line_feed].
  by rewrite IH, orb_assoc.
Qed.

Lemma string_of_uint_line_feed_free (d : Decimal.uint) :
  has_line_feed (DecimalString.NilEmpty.string_of_uint d) = false.
Proof. induction d; cbn; done. Qed.

Lemma FormatInt_line_feed_free (n : Z) : has_line_feed (fmt.FormatInt n) = false.
Proof.
  unfold fmt.FormatInt. destruct (Z.to_int n) as [d|d]; cbn;
    apply string_of_uint_line_feed_free.
Qed.

Lemma text_lines_line (l rest : string) :
  has_line_feed l = false → text_lines (l +:+ nl +:+ rest) = l :: text_lines rest.
Proof.
  induction l as [|c l IH]; intros Hl.
  - change ("" +:+ nl +:+ rest) with (String (ascii_of_nat 10) rest). done.
  - cbn [has_line_feed] in Hl. apply orb_false_elim in Hl as [Hc Hl].
    change (String c l +:+ nl +:+ rest) with (String c (l +:+ nl +:+ rest)).
    cbn [text_lines]. by rewrite Hc, IH.
Qed.

Lemma text_lines_lines (l : string) (ls : list string) :
  Forall (λ l, has_line_feed l = false) (l :: ls) →
  text_lines (lines (l :: ls) +:+ nl) = (l :: ls) ++ [""].
Proof.
  revert l. induction ls as [|l' ls IH]; intros l [Hl Hls]%Forall_cons.
  - change (lines [l] +:+ nl) with (l +:+ nl +:+ "").
    by rewrite text_lines_line.
  - change (lines (l :: l' :: ls)) with (l +:+ nl +:+ lines (l' :: ls)).
    rewrite !string_app_assoc, text_lines_line, IH; done.
Qed.

Lemma forallb_Forall {A} (f : A → bool) (l : list A) :
  forallb f l = true ↔ Forall (λ x, f x = true) l.
Proof.
  induction l as [|x l IH]; [by split; [constructor|]|].
  cbn [forallb]. by rewrite andb_true_iff, Forall_cons, IH.
Qed.

Lemma Forall_concat_fmap {A B} (P : B → Prop) (f : A → list B) (l : list A) :
  Forall (λ x, Forall P (f x)) l → Forall P (concat (f <$> l)).
Proof.
  induction 1 as [|x l Hx _ IH]; [constructor|].
  rewrite fmap_cons. cbn [concat]. by apply Forall_app_2.
Qed.

Lemma Forall_concat_imap {A B} (P : B → Prop) (f : nat → A → list B) (l : list A) :
  Forall (λ x, ∀ i, Forall P (f i x)) l → Forall P (concat (imap f l)).
Proof.
  intros Hl. revert f Hl. induction l as [|x l IH]; intros f Hl; [constructor|].
  apply Forall_cons in Hl as [Hx Hl]. cbn [imap concat]. apply Forall_app_2; [done|].
  apply IH. apply (Forall_impl _ _ _ Hl). intros y Hy i. apply Hy.
Qed.

(** The lines of a block that holds no string of the policy. *)
Ltac fixed_block := apply forallb_Forall; vm_compute; reflexivity.

(** A line made of strings of which those of the policy have no line feed. *)
Ltac policy_line :=
  rewrite ?has_line_feed_app, ?FormatInt_line_feed_free;
  repeat match goal with H : has_line_feed _ = false |- _ => rewrite H; clear H end;
  reflexivity.

Lemma document_lines_line_feed_free (JSEscapeString : string → string)
    (pm : option egcfgv1a1.ProxyMetrics) :
  line_feed_free JSEscapeString pm = true →
  Forall (λ l, negb (has_line_feed l) = true)
    (document_lines JSEscapeString (buildParameters pm)).
Proof.
  unfold line_feed_free, policy_strings. rewrite forallb_Forall, !Forall_app.
  intros (Hhosts & Hprefixes & Hsuffixes & Hregexps).
  assert (Forall (λ t, has_line_feed (egcfgv1a1.Host t) = false)
            (first_occurrences sink_key (otel_targets pm))) as Hkept.
  { apply Forall_forall. intros t Ht.
    pose proof (elem_of_sublist _ _ _ Ht
                  (first_occurrences_sublist sink_key (otel_targets pm))) as Ht'.
    rewrite Forall_fmap, Forall_forall in Hhosts.
    by apply negb_true_iff, (Hhosts t). }
  rewrite document_lines_blocks. cbn zeta. rewrite !Forall_app.
  repeat split; try fixed_block.
  - apply Forall_fmap, Forall_app_2; [|fixed_block].
    apply (Forall_impl _ _ _ Hprefixes). intros s Hs%negb_true_iff. cbn.
    apply negb_true_iff. unfold prefix_pattern. policy_line.
  - apply Forall_fmap, (Forall_impl _ _ _ Hsuffixes). intros s Hs%negb_true_iff. cbn.
    apply negb_true_iff. unfold suffix_pattern. policy_line.
  - apply Forall_concat_fmap. rewrite Forall_fmap in Hregexps.
    apply (Forall_impl _ _ _ Hregexps). intros s Hs%negb_true_iff. cbn in Hs.
    unfold regex_pattern_lines. repeat apply Forall_cons_2; try apply Forall_nil_2;
      apply negb_true_iff; policy_line.
  - case_bool_decide; [constructor|]. apply Forall_cons_2; [done|].
    apply Forall_concat_imap, Forall_forall. intros t _ i.
    unfold stats_sink_lines. repeat apply Forall_cons_2; try apply Forall_nil_2;
      apply negb_true_iff; policy_line.
  - destruct (bool_decide (prometheus_present pm)); [fixed_block|constructor].
  - destruct (bool_decide (prometheus_present pm)); [fixed_block|constructor].
  - apply Forall_concat_imap, (Forall_impl _ _ _ Hkept). intros t Ht i.
    unfold otel_metric_sink_cluster_lines.
    cbn [to_metricSink metricSink.Address metricSink.Port].
    repeat apply Forall_cons_2; try apply Forall_nil_2; apply negb_true_iff; policy_line.
Qed.

(** The lines of the rendered text are the lines that the template writes,
    and the empty line after the last line feed, when no string of the
    policy holds a line feed. *)
Lemma text_lines_rendered (JSEscapeString : string → string)
    (pm : option egcfgv1a1.ProxyMetrics) :
  line_feed_free JSEscapeString pm = true →
  GetRenderedBootstrapConfig JSEscapeString pm
  = (document JSEscapeString (buildParameters pm), None)
  ∧ text_lines (GetRenderedBootstrapConfig JSEscapeString pm).1
    = document_lines JSEscapeString (buildParameters pm) ++ [""].
Proof.
  intros Hfree%document_lines_line_feed_free.
  rewrite GetRenderedBootstrapConfig_document. split; [done|]. cbn [fst].
  unfold document.
  destruct (document_lines JSEscapeString (buildParameters pm)) as [|l ls] eqn:Hls.
  - unfold document_lines, admin_lines in Hls. cbn [app] in Hls. discriminate Hls.
  - apply text_lines_lines, (Forall_impl _ _ _ Hfree). intros l'. apply negb_true_iff.
Qed.

Lemma starting_with_text (pre : string) (ls : list string) :
  pre ≠ "" → starting_with pre (ls ++ [""]) = starting_with pre ls.
Proof.
  intros Hpre. unfold starting_with. rewrite filter_app, filter_cons_False.
  - apply app_nil_r.
  - by destruct pre.
Qed.

Lemma occurrences_text (x : string) (ls : list string) :
  x ≠ "" → occurrences x (ls ++ [""]) = occurrences x ls.
Proof.
  intros Hx. rewrite occurrences_app, occurrences_cons, bool_decide_false by done.
  unfold occurrences. cbn. lia.
Qed.

Lemma after_text (pre : string) (ls : list string) :
  pre ≠ "" → after pre (ls ++ [""]) = after pre ls.
Proof.
  intros Hpre. unfold after. rewrite omap_app. destruct pre; [done|]. apply app_nil_r.
Qed.

Section rendered_text.
Variable JSEscapeString : string → string.

(** C1: for every policy whose strings hold no line feed, the rendered text
    has one sink cluster for each distinct key ["host:port"] among the sinks
    that carry an OpenTelemetry target, in the order in which the keys come
    first: the lines of the text that open a sink cluster are
    [  - name: otel_metric_sink_<i>] for the positions [i] of that sequence,
    counted after the duplicates have left, and the endpoints of the
    clusters are the hosts and the ports of that sequence, in its order. *)
Theorem sink_clusters_in_first_occurrence_order (pm : option egcfgv1a1.ProxyMetrics) :
  line_feed_free JSEscapeString pm = true →
  let p := buildParameters pm in
  let kept := first_occurrences sink_key (otel_targets pm) in
  let text := (GetRenderedBootstrapConfig JSEscapeString pm).1 in
  (GetRenderedBootstrapConfig JSEscapeString pm).2 = None
  ∧ text_lines text = document_lines JSEscapeString p ++ [""]
  ∧ bootstrapParameters.OtelMetricSinks p = to_metricSink <$> kept
  ∧ starting_with "  - name: otel_metric_sink_" (text_lines text)
    = imap (λ i _, "  - name: otel_metric_sink_" +:+ fmt.FormatInt (Z.of_nat i)) kept
  ∧ after "                address: " (text_lines text)
    = (if bool_decide (prometheus_present pm) then ["127.0.0.1"] else [])
      ++ (egcfgv1a1.Host <$> kept) ++ ["envoy-gateway"]
  ∧ after "                port_value: " (text_lines text)
    = (if bool_decide (prometheus_present pm) then ["19000"] else [])
      ++ ((λ t, fmt.FormatInt (egcfgv1a1.Port t)) <$> kept) ++ ["18000"]
  ∧ length kept = size (list_to_set (C := gset string) (sink_key <$> otel_targets pm))
  ∧ NoDup (sink_key <$> kept)
  ∧ kept `sublist_of` otel_targets pm.
Proof.
  intros [Hrendered Hlines]%text_lines_rendered. cbn zeta. rewrite Hlines.
  split; [by rewrite Hrendered|]. split; [done|].
  split; [by rewrite buildParameters_eq|].
  split; [by rewrite starting_with_text, sink_cluster_names|].
  split; [by rewrite after_text, endpoint_addresses|].
  split; [by rewrite after_text, endpoint_ports|].
  split; [apply first_occurrences_length|].
  split; [apply first_occurrences_NoDup|apply first_occurrences_sublist].
Qed.

(** C2: for every policy whose strings hold no line feed, also an absent one
    or one without a stats matcher, the prefix patterns of the rendered text
    are the prefixes of the caller in their order, and then the entries of
    the baseline in the order of the baseline; nothing is removed, and no
    duplicate is looked for. *)
Theorem prefixes_are_caller_then_baseline (pm : option egcfgv1a1.ProxyMetrics) :
  line_feed_free JSEscapeString pm = true →
  let p := buildParameters pm in
  let prefixes := caller_prefixes pm ++ baseline_prefixes in
  let text := (GetRenderedBootstrapConfig JSEscapeString pm).1 in
  strings.Split RequiredEnvoyStatsMatcherInclusionPrefixes "," = baseline_prefixes
  ∧ ProxyStatsMatcherParameters.InclusionPrefixs (bootstrapParameters.ProxyStatsMatcher p)
    = prefixes
  ∧ (GetRenderedBootstrapConfig JSEscapeString pm).2 = None
  ∧ text_lines text = document_lines JSEscapeString p ++ [""]
  ∧ starting_with "      - prefix: " (text_lines text) = prefix_pattern <$> prefixes
  ∧ length prefixes = length (caller_prefixes pm) + 4.
Proof.
  intros [Hrendered Hlines]%text_lines_rendered. cbn zeta. rewrite Hlines.
  split; [done|]. split; [by rewrite buildParameters_eq|].
  split; [by rewrite Hrendered|]. split; [done|].
  split; [by rewrite starting_with_text, prefix_pattern_lines|].
  by rewrite length_app.
Qed.


(** C9: for every policy whose strings hold no line feed, when no sink is
    left (no policy, no sink, or no sink with an OpenTelemetry target) the
    rendered text has no [stats_sinks] section: the key itself is left out;
    and when a sink is left the key stands in it once. *)
Theorem stats_sinks_section_only_with_sinks (pm : option egcfgv1a1.ProxyMetrics) :
  line_feed_free JSEscapeString pm = true →
  let p := buildParameters pm in
  let sinks := bootstrapParameters.OtelMetricSinks p in
  let text := (GetRenderedBootstrapConfig JSEscapeString pm).1 in
  (sinks = [] ↔ Forall (λ s, egcfgv1a1.OpenTelemetry s = None) (policy_sinks pm))
  ∧ (GetRenderedBootstrapConfig JSEscapeString pm).2 = None
  ∧ text_lines text = document_lines JSEscapeString p ++ [""]
  ∧ occurrences "stats_sinks:" (text_lines text)
    = (if bool_decide (sinks = []) then 0 else 1).
Proof.
  intros [Hrendered Hlines]%text_lines_rendered. cbn zeta. rewrite Hlines.
  destruct (stats_sinks_blocks JSEscapeString pm) as (Hsinks & _ & _ & Hkey).
  cbn zeta in *.
  split; [done|]. split; [by rewrite Hrendered|]. split; [done|].
  by rewrite occurrences_text.
Qed.

End rendered_text.

(** ** The claims on examples, and where they stop *)

(** The witness of C1: the example policy, whose strings hold no line feed,
    has two sink clusters for its three targets. *)
Lemma sink_clusters_in_first_occurrence_order_witness :
  line_feed_free js_id (Some example_policy) = true
  ∧ starting_with "  - name: otel_metric_sink_"
      (text_lines (GetRenderedBootstrapConfig js_id (Some example_policy)).1)
    = ["  - name: otel_metric_sink_0"; "  - name: otel_metric_sink_1"].
Proof.
  split; [reflexivity|].
  destruct (sink_clusters_in_first_occurrence_order js_id (Some example_policy) eq_refl)
    as (_ & _ & _ & Hclusters & _).
  rewrite Hclusters. vm_compute. reflexivity.
Defined.

(** Where C1 stops: a host with a line feed in it puts lines of its own into
    the text.  The policy has one sink, and so one key; the rendered text
    opens two sink clusters, and the second is not at position 1. *)
Lemma sink_clusters_with_a_line_feed :
  let pm := Some (policy_with_host ("h" +:+ nl +:+ "  - name: otel_metric_sink_7")) in
  let text := (GetRenderedBootstrapConfig js_id pm).1 in
  (GetRenderedBootstrapConfig js_id pm).2 = None
  ∧ line_feed_free js_id pm = false
  ∧ length (first_occurrences sink_key (otel_targets pm)) = 1
  ∧ starting_with "  - name: otel_metric_sink_" (text_lines text)
    = ["  - name: otel_metric_sink_0"; "  - name: otel_metric_sink_7"].
Proof. cbn zeta. repeat split; vm_compute; reflexivity. Qed.

(** The witness of C2: the example policy has one prefix of its own. *)
Lemma prefixes_are_caller_then_baseline_witness :
  line_feed_free js_id (Some example_policy) = true
  ∧ starting_with "      - prefix: "
      (text_lines (GetRenderedBootstrapConfig js_id (Some example_policy)).1)
    = prefix_pattern
      <$> ["custom_"; "cluster_manager"; "listener_manager"; "server"; "cluster.xds-grpc"].
Proof.
  split; [reflexivity|].
  destruct (prefixes_are_caller_then_baseline js_id (Some example_policy) eq_refl)
    as (_ & _ & _ & _ & Hprefixes & _).
  rewrite Hprefixes. reflexivity.
Defined.

(** Where C2 stops: one prefix of the caller, with a line feed in it, gives
    two prefix patterns; with the four of the baseline the rendered text has
    six, where the caller's prefixes and the baseline are five. *)
Lemma prefixes_with_a_line_feed :
  let pm := Some (policy_with_prefix ("a" +:+ dq +:+ nl +:+ "      - prefix: " +:+ dq +:+ "b")) in
  let text := (GetRenderedBootstrapConfig js_id pm).1 in
  (GetRenderedBootstrapConfig js_id pm).2 = None
  ∧ line_feed_free js_id pm = false
  ∧ length (caller_prefixes pm ++ baseline_prefixes) = 5
  ∧ starting_with "      - prefix: " (text_lines text)
    = prefix_pattern
      <$> ["a"; "b"; "cluster_manager"; "listener_manager"; "server"; "cluster.xds-grpc"].
Proof. cbn zeta. repeat split; vm_compute; reflexivity. Qed.



(** The witness of C9: a policy whose one sink has no target. *)
Lemma stats_sinks_section_only_with_sinks_witness :
  let pm := Some {| egcfgv1a1.Prometheus := None;
                    egcfgv1a1.Sinks := [ {| egcfgv1a1.OpenTelemetry := None |} ];
                    egcfgv1a1.StatsMatcher := None |} in
  line_feed_free js_id pm = true
  ∧ occurrences "stats_sinks:" (text_lines (GetRenderedBootstrapConfig js_id pm).1) = 0.
Proof.
  cbn zeta. split; [reflexivity|].
  destruct (stats_sinks_section_only_with_sinks js_id
              (Some {| egcfgv1a1.Prometheus := None;
                       egcfgv1a1.Sinks := [ {| egcfgv1a1.OpenTelemetry := None |} ];
                       egcfgv1a1.StatsMatcher := None |}) eq_refl)
    as (_ & _ & _ & Hkey).
  rewrite Hkey. reflexivity.
Defined.

(** Where C9 stops: the policy has no sink, and its prefix, with line feeds
    in it, puts the key [stats_sinks] into the first column of the rendered
    text. *)
Lemma stats_sinks_with_a_line_feed :
  let pm := Some (policy_with_prefix
                    ("a" +:+ dq +:+ nl +:+ "stats_sinks:" +:+ nl
                     +:+ "      - prefix: " +:+ dq +:+ "b")) in
  let text := (GetRenderedBootstrapConfig js_id pm).1 in
  (GetRenderedBootstrapConfig js_id pm).2 = None
  ∧ line_feed_free js_id pm = false
  ∧ bootstrapParameters.OtelMetricSinks (buildParameters pm) = []
  ∧ occurrences "stats_sinks:" (text_lines text) = 1.
Proof. cbn zeta. repeat split; vm_compute; reflexivity. Qed.

